(** * deploy.py: the rollout script, embedded and verified

    The script snapshots the served directory, copies the working tree
    over it, starts an HTTP server, polls it, and rolls back on failure.
    Every function of [deploy.py] is written here as a computation in a
    state-and-exception monad over a [world]: the file system, the log,
    the sockets, the HTTP peer and the clock.  Python exceptions are
    values of [exn]; [except Exception] catches exactly the exceptions
    built with [Exception], never [SystemExit] or [KeyboardInterrupt]. *)

From Stdlib Require Import List String Ascii ZArith Bool Lia Arith.
From Stdlib Require Import DecimalString.
Import ListNotations.
Open Scope string_scope.
Open Scope Z_scope.

(** ** Python values, exceptions and outcomes *)

(** What a call evaluates to when the claim is about the returned object
    itself (a function that falls off its end returns [None]). *)
Inductive pyval :=
| PyNone
| PyInt (n : Z)
| PyStr (s : string)
| PyBool (b : bool).

(** [Exception cls msg] is an instance of the class named [cls], a
    subclass of [Exception], whose [str()] is [msg]. *)
Inductive exn :=
| Exception (cls msg : string)
| SystemExit (code : Z)
| KeyboardInterrupt.

Definition is_Exception (e : exn) : bool :=
  match e with Exception _ _ => true | _ => false end.

Definition is_KeyboardInterrupt (e : exn) : bool :=
  match e with KeyboardInterrupt => true | _ => false end.

Definition exn_class (e : exn) : string :=
  match e with
  | Exception cls _ => cls
  | SystemExit _ => "SystemExit"
  | KeyboardInterrupt => "KeyboardInterrupt"
  end.

(** [str(e)], as an f-string prints it. *)
Definition str_exn (e : exn) : string :=
  match e with
  | Exception _ msg => msg
  | SystemExit code => NilZero.string_of_int (Z.to_int code)
  | KeyboardInterrupt => ""
  end.

Definition str_Z (n : Z) : string := NilZero.string_of_int (Z.to_int n).

Inductive outcome (A : Type) :=
| Ok (a : A)
| Raise (e : exn).
Arguments Ok {A} a.
Arguments Raise {A} e.

(** ** Configuration (the parsed [deploy_config.json]) *)

Record ServerConfig := {
  host : string;
  port : Z;
  root_dir : string
}.

Record HealthConfig := {
  endpoint : string;
  retries : Z;
  timeout : Z
}.

(** [config['security'].get('headers', {})]: the key may be missing.  A
    dict keeps its keys in insertion order, which is the order of
    [.items()]. *)
Record SecurityConfig := {
  headers : option (list (string * string))
}.

Record Config := {
  server : ServerConfig;
  health_check_cfg : HealthConfig;
  security : option SecurityConfig
}.

(** What opening and parsing the configuration file gives: the file is
    missing ([FileNotFoundError]), it is not JSON ([JSONDecodeError]),
    reading it raises another exception (a [PermissionError], a
    [UnicodeDecodeError], ...), or it parses. *)
Inductive config_file :=
| ConfigMissing
| ConfigInvalid
| ConfigUnreadable (cls msg : string)
| ConfigJSON (c : Config).

(** ** Constants *)

Definition CONFIG_FILE : string := "deploy_config.json".
Definition BACKUP_DIR : string := "deploy_backups".
Definition WWW_DIR : string := "www".

(** ** Logging *)

Inductive level := INFO | WARNING | ERROR | CRITICAL.

Definition level_rank (l : level) : nat :=
  match l with INFO => 20 | WARNING => 30 | ERROR => 40 | CRITICAL => 50 end%nat.

Definition log_record : Type := level * string.

(** ** Sockets and HTTP *)

(** The object [socketserver.TCPServer((host, port), handler)] returns;
    [handler] is [partial(SecureHTTPRequestHandler, directory=root_dir,
    config=config)]. *)
Record httpd := {
  srv_host : string;
  srv_port : Z;
  srv_directory : string;
  srv_config : Config
}.

(** What one [requests.get] does: a response with a status code, or an
    exception of [requests] (connection refused, timeout, ...), which are
    all subclasses of [Exception]. *)
Inductive get_result :=
| Response (status_code : Z)
| GetRaises (cls msg : string).

(** ** The interface to the file system

    [os.path.exists] and [os.path.isdir] never raise; the others return
    or raise, and may leave the disk changed either way. *)
Class FileSystem (disk : Type) := {
  fs_exists : string -> disk -> bool;
  fs_isdir : string -> disk -> bool;
  fs_listdir : string -> disk -> outcome (list string);
  fs_makedirs : string -> disk -> outcome unit * disk;
  fs_rmtree : string -> disk -> outcome unit * disk;
  fs_copytree : string -> string -> disk -> outcome unit * disk;
  fs_copy2 : string -> string -> disk -> outcome unit * disk
}.

(** ** The world *)

Record world (disk : Type) := World {
  w_disk : disk;
  (* datetime.now().strftime('%Y%m%d_%H%M%S') *)
  w_clock : string;
  (* records emitted so far, oldest first *)
  w_log : list log_record;
  (* the configuration file as json.load finds it *)
  w_config : config_file;
  (* s.connect_ex((host, port)): an errno, or an exception *)
  w_connect_ex : string -> Z -> outcome Z;
  (* what constructing TCPServer((host, port), ...) raises, if anything *)
  w_bind : string -> Z -> option exn;
  (* every TCPServer construction attempted, oldest first *)
  w_bind_attempts : list (string * Z);
  (* servers whose serve_forever thread runs *)
  w_serving : list httpd;
  (* the outcome of the n-th GET of this process *)
  w_http : nat -> string -> Z -> get_result;
  w_gets : nat;
  (* seconds slept *)
  w_sleeps : nat;
  (* how many one-second sleeps of the idle loop pass before Ctrl-C *)
  w_interrupt_after : nat
}.
Arguments World {disk}.
Arguments w_disk {disk}.
Arguments w_clock {disk}.
Arguments w_log {disk}.
Arguments w_config {disk}.
Arguments w_connect_ex {disk}.
Arguments w_bind {disk}.
Arguments w_bind_attempts {disk}.
Arguments w_serving {disk}.
Arguments w_http {disk}.
Arguments w_gets {disk}.
Arguments w_sleeps {disk}.
Arguments w_interrupt_after {disk}.

Section Updates.
Context {disk : Type}.
Implicit Type w : world disk.

Definition set_disk (d : disk) w : world disk :=
  World d (w_clock w) (w_log w) (w_config w) (w_connect_ex w) (w_bind w)
        (w_bind_attempts w) (w_serving w) (w_http w) (w_gets w)
        (w_sleeps w) (w_interrupt_after w).

Definition set_log (l : list log_record) w : world disk :=
  World (w_disk w) (w_clock w) l (w_config w) (w_connect_ex w) (w_bind w)
        (w_bind_attempts w) (w_serving w) (w_http w) (w_gets w)
        (w_sleeps w) (w_interrupt_after w).

Definition set_bind_attempts (l : list (string * Z)) w : world disk :=
  World (w_disk w) (w_clock w) (w_log w) (w_config w) (w_connect_ex w)
        (w_bind w) l (w_serving w) (w_http w) (w_gets w)
        (w_sleeps w) (w_interrupt_after w).

Definition set_serving (l : list httpd) w : world disk :=
  World (w_disk w) (w_clock w) (w_log w) (w_config w) (w_connect_ex w)
        (w_bind w) (w_bind_attempts w) l (w_http w) (w_gets w)
        (w_sleeps w) (w_interrupt_after w).

Definition set_gets (n : nat) w : world disk :=
  World (w_disk w) (w_clock w) (w_log w) (w_config w) (w_connect_ex w)
        (w_bind w) (w_bind_attempts w) (w_serving w) (w_http w) n
        (w_sleeps w) (w_interrupt_after w).

Definition set_sleeps (n : nat) w : world disk :=
  World (w_disk w) (w_clock w) (w_log w) (w_config w) (w_connect_ex w)
        (w_bind w) (w_bind_attempts w) (w_serving w) (w_http w) (w_gets w)
        n (w_interrupt_after w).
End Updates.

(** ** The monad *)

Definition M (disk A : Type) : Type := world disk -> outcome A * world disk.

Definition ret {disk A} (a : A) : M disk A := fun w => (Ok a, w).

Definition bind {disk A B} (m : M disk A) (k : A -> M disk B) : M disk B :=
  fun w =>
    match m w with
    | (Ok a, w') => k a w'
    | (Raise e, w') => (Raise e, w')
    end.

Definition raise {disk A} (e : exn) : M disk A := fun w => (Raise e, w).

(** [try: body / except <classes matched by catches>: handler]. *)
Definition try_except {disk A} (catches : exn -> bool)
    (body : M disk A) (handler : exn -> M disk A) : M disk A :=
  fun w =>
    match body w with
    | (Ok a, w') => (Ok a, w')
    | (Raise e, w') => if catches e then handler e w' else (Raise e, w')
    end.

Declare Scope py_scope.
Delimit Scope py_scope with py.
Notation "x <- m ;; k" := (bind m (fun x => k))
  (at level 61, m at next level, right associativity) : py_scope.
Notation "m ;; k" := (bind m (fun _ => k))
  (at level 61, right associativity) : py_scope.
Open Scope py_scope.

(** A [for] loop whose body may [return] from the enclosing function:
    the body yields [inl r] to return [r] or [inr s] to go on with the
    loop variables [s]. *)
Fixpoint for_in {disk A S R} (xs : list A) (s : S)
    (body : A -> S -> M disk (R + S)) : M disk (R + S) :=
  match xs with
  | [] => ret (inr s)
  | x :: xs' =>
      r <- body x s ;;
      match r with
      | inl v => ret (inl v)
      | inr s' => for_in xs' s' body
      end
  end.

(** [range(n)]: empty when [n <= 0]. *)
Definition range (n : Z) : list Z := map Z.of_nat (seq 0 (Z.to_nat n)).

(** ** String helpers of the Python standard library *)

(** [s.startswith(p)] *)
Fixpoint startswith (s p : string) {struct p} : bool :=
  match p with
  | EmptyString => true
  | String b p' =>
      match s with
      | EmptyString => false
      | String a s' => Ascii.eqb a b && startswith s' p'
      end
  end.

Fixpoint endswith_slash (s : string) : bool :=
  match s with
  | EmptyString => false
  | String c EmptyString => Ascii.eqb c "/"
  | String _ s' => endswith_slash s'
  end.

(** [os.path.join(a, b)] of [posixpath]. *)
Definition os_path_join (a b : string) : string :=
  if startswith b "/" then b
  else if (a =? "")%string || endswith_slash a then a ++ b
  else a ++ "/" ++ b.

(** [item in excludes] *)
Definition str_in (item : string) (l : list string) : bool :=
  existsb (String.eqb item) l.

(** Truth value of a path that may be [None]: [None] and [''] are false. *)
Definition truthy (p : option string) : bool :=
  match p with
  | Some s => negb (s =? "")%string
  | None => false
  end.

(** The string a variable holding a path or [None] stands for. *)
Definition path_str (p : option string) : string :=
  match p with Some s => s | None => "" end.

(** ** The program *)

Section Program.
Context {disk : Type} {FS : FileSystem disk}.

Local Abbreviation Py := (M disk).

(** *** Primitives *)

Definition logger (l : level) (msg : string) : Py unit :=
  fun w => (Ok tt, set_log (w_log w ++ [(l, msg)]) w).

Definition logger_info := logger INFO.
Definition logger_warning := logger WARNING.
Definition logger_error := logger ERROR.
Definition logger_critical := logger CRITICAL.

Definition sys_exit {A} (code : Z) : Py A := raise (SystemExit code).

Definition os_path_exists (p : string) : Py bool :=
  fun w => (Ok (fs_exists p (w_disk w)), w).

Definition os_path_isdir (p : string) : Py bool :=
  fun w => (Ok (fs_isdir p (w_disk w)), w).

Definition os_listdir (p : string) : Py (list string) :=
  fun w => (fs_listdir p (w_disk w), w).

Definition on_disk (op : disk -> outcome unit * disk) : Py unit :=
  fun w => let (r, d) := op (w_disk w) in (r, set_disk d w).

Definition os_makedirs (p : string) : Py unit := on_disk (fs_makedirs p).
Definition shutil_rmtree (p : string) : Py unit := on_disk (fs_rmtree p).
Definition shutil_copytree (src dst : string) : Py unit :=
  on_disk (fs_copytree src dst).
Definition shutil_copy2 (src dst : string) : Py unit :=
  on_disk (fs_copy2 src dst).

Definition datetime_now_strftime : Py string :=
  fun w => (Ok (w_clock w), w).

Definition time_sleep (seconds : nat) : Py unit :=
  fun w => (Ok tt, set_sleeps (w_sleeps w + seconds)%nat w).

(** [requests.get(url, timeout=t)], returning [response.status_code]. *)
Definition requests_get (url : string) (t : Z) : Py Z :=
  fun w =>
    let w' := set_gets (S (w_gets w)) w in
    match w_http w (w_gets w) url t with
    | Response code => (Ok code, w')
    | GetRaises cls msg => (Raise (Exception cls msg), w')
    end.

Definition socket_connect_ex (h : string) (p : Z) : Py Z :=
  fun w => (w_connect_ex w h p, w).

Definition TCPServer (h : string) (p : Z) (directory : string)
    (config : Config) : Py httpd :=
  fun w =>
    let w' := set_bind_attempts (w_bind_attempts w ++ [(h, p)]) w in
    match w_bind w h p with
    | Some e => (Raise e, w')
    | None => (Ok {| srv_host := h; srv_port := p;
                     srv_directory := directory; srv_config := config |}, w')
    end.

(** [threading.Thread(target=httpd.serve_forever)], daemon, started. *)
Definition serve_forever_thread (s : httpd) : Py unit :=
  fun w => (Ok tt, set_serving (w_serving w ++ [s]) w).

Definition same_address (a b : httpd) : bool :=
  (srv_host a =? srv_host b)%string && (srv_port a =? srv_port b).

Definition server_shutdown (s : httpd) : Py unit :=
  fun w =>
    (Ok tt, set_serving (filter (fun x => negb (same_address s x)) (w_serving w)) w).

(** [while True: time.sleep(1)]: ends only with the interrupt. *)
Definition sleep_until_interrupt : Py unit :=
  fun w =>
    (Raise KeyboardInterrupt,
     set_sleeps (w_sleeps w + w_interrupt_after w)%nat w).

(** *** load_config

    The two exceptions of the [except] clauses end in [sys.exit(1)]; any
    other is not caught. *)

Definition load_config : Py Config :=
  fun w =>
    match w_config w with
    | ConfigJSON c => ret c w
    | ConfigMissing =>
        (logger_error ("Configuration file " ++ CONFIG_FILE ++ " not found.") ;;
         sys_exit 1) w
    | ConfigInvalid =>
        (logger_error ("Invalid JSON in " ++ CONFIG_FILE ++ ".") ;;
         sys_exit 1) w
    | ConfigUnreadable cls msg => raise (Exception cls msg) w
    end.

(** *** check_dependencies

    The [requests] package is taken to be installed, so the import
    succeeds and nothing is installed. *)
Definition check_dependencies : Py unit :=
  logger_info "Checking dependencies...".

(** *** setup_environment *)

Definition setup_environment (config : Config) : Py unit :=
  logger_info "Setting up environment..." ;;
  let root_dir := root_dir (server config) in
  e <- os_path_exists root_dir ;;
  (if negb e then
     os_makedirs root_dir ;;
     logger_info ("Created root directory: " ++ root_dir)
   else ret tt) ;;
  e' <- os_path_exists BACKUP_DIR ;;
  if negb e' then os_makedirs BACKUP_DIR else ret tt.

(** *** backup_current_version *)

Definition is_empty {A} (l : list A) : bool :=
  match l with [] => true | _ => false end.

Definition backup_current_version (config : Config) : Py (option string) :=
  let root_dir := root_dir (server config) in
  e <- os_path_exists root_dir ;;
  nonempty <- (if e then l <- os_listdir root_dir ;; ret (negb (is_empty l))
               else ret false) ;;
  if nonempty then
    timestamp <- datetime_now_strftime ;;
    let backup_path := os_path_join BACKUP_DIR ("backup_" ++ timestamp) in
    shutil_copytree root_dir backup_path ;;
    logger_info ("Backup created at: " ++ backup_path) ;;
    ret (Some backup_path)
  else ret None.

(** *** deploy_files *)

Definition excludes_of (root_dir : string) : list string :=
  [root_dir; BACKUP_DIR; ".git"; ".vscode"; "__pycache__"; "deploy.log";
   "deploy.py"; "deploy_config.json"; "deploy_to_github.ps1";
   "mirror_script.py"; "summon_demon.ps1"].

Definition skipped (excludes : list string) (item : string) : bool :=
  str_in item excludes || startswith item ".".

(** The body of the loop, for one [item] and the running [count]; it has
    no [return]. *)
Definition deploy_item (root_dir : string) (excludes : list string)
    (item : string) (count : Z) : Py (Empty_set + Z) :=
  if skipped excludes item then ret (inr count)
  else
    let src := item in
    let dst := os_path_join root_dir item in
    d <- os_path_isdir src ;;
    (if d then
       e <- os_path_exists dst ;;
       (if e then shutil_rmtree dst else ret tt) ;;
       shutil_copytree src dst
     else shutil_copy2 src dst) ;;
    ret (inr (count + 1)).

Definition deploy_files (config : Config) : Py pyval :=
  let root_dir := root_dir (server config) in
  let excludes := excludes_of root_dir in
  logger_info "Deploying files..." ;;
  items <- os_listdir "." ;;
  r <- for_in items 0 (deploy_item root_dir excludes) ;;
  match r with
  | inl never => match never with end
  | inr count =>
      logger_info ("Deployed " ++ str_Z count ++ " items to " ++ root_dir) ;;
      ret PyNone
  end.

(** *** health_check *)

Definition health_url (config : Config) : string :=
  let host := host (server config) in
  let port := port (server config) in
  let endpoint := endpoint (health_check_cfg config) in
  "http://" ++ (if negb (host =? "0.0.0.0")%string then host else "127.0.0.1")
    ++ ":" ++ str_Z port ++ endpoint.

(** One turn of the loop: [inl true] is [return True]. *)
Definition health_attempt (config : Config) (url : string)
    (i : Z) (_ : unit) : Py (bool + unit) :=
  r <- try_except is_Exception
         (status_code <- requests_get url (timeout (health_check_cfg config)) ;;
          if status_code =? 200 then
            logger_info "Health check PASSED." ;;
            ret (inl true)
          else
            logger_warning ("Health check returned status code: "
                            ++ str_Z status_code) ;;
            ret (inr tt))
         (fun e =>
            logger_warning ("Health check attempt " ++ str_Z (i + 1)
                            ++ " failed: " ++ str_exn e) ;;
            ret (inr tt)) ;;
  match r with
  | inl b => ret (inl b)
  | inr _ => time_sleep 1 ;; ret (inr tt)
  end.

Definition health_check (config : Config) : Py bool :=
  let url := health_url config in
  logger_info ("Running health check on " ++ url ++ "...") ;;
  let retries := retries (health_check_cfg config) in
  r <- for_in (range retries) tt (health_attempt config url) ;;
  match r with
  | inl b => ret b
  | inr _ =>
      logger_error "Health check FAILED." ;;
      ret false
  end.

(** *** start_server *)

Definition probe_host (h : string) : string :=
  if negb (h =? "0.0.0.0")%string then h else "127.0.0.1".

Definition start_server (config : Config) : Py (option httpd) :=
  let host := host (server config) in
  let port := port (server config) in
  let root_dir := root_dir (server config) in
  try_except is_Exception
    (rc <- socket_connect_ex (probe_host host) port ;;
     if rc =? 0 then
       logger_error ("Port " ++ str_Z port ++ " is already in use.") ;;
       ret None
     else
       httpd <- TCPServer host port root_dir config ;;
       logger_info ("Serving HTTP on " ++ host ++ " port " ++ str_Z port
                    ++ " (http://" ++ host ++ ":" ++ str_Z port ++ "/) ...") ;;
       serve_forever_thread httpd ;;
       ret (Some httpd))
    (fun e =>
       logger_error ("Failed to start server: " ++ str_exn e) ;;
       ret None).

(** *** rollback *)

Definition rollback (backup_path : option string) (config : Config) : Py unit :=
  if negb (truthy backup_path) then
    logger_warning "No backup path provided for rollback."
  else
    logger_warning "Initiating ROLLBACK..." ;;
    let root_dir := root_dir (server config) in
    try_except is_Exception
      (e <- os_path_exists root_dir ;;
       (if e then shutil_rmtree root_dir else ret tt) ;;
       shutil_copytree (path_str backup_path) root_dir ;;
       logger_info "Rollback successful.")
      (fun e => logger_critical ("Rollback failed: " ++ str_exn e)).

(** *** main *)

Definition main : Py unit :=
  logger_info "Starting deployment process..." ;;
  config <- load_config ;;
  check_dependencies ;;
  setup_environment config ;;
  backup_path <- backup_current_version config ;;
  try_except is_Exception
    (deploy_files config ;; ret tt)
    (fun e =>
       logger_error ("Deployment failed: " ++ str_exn e) ;;
       (if truthy backup_path then rollback backup_path config else ret tt) ;;
       sys_exit 1) ;;
  server <- start_server config ;;
  match server with
  | None =>
      logger_error "Server failed to start." ;;
      sys_exit 1
  | Some httpd =>
      healthy <- health_check config ;;
      if negb healthy then
        logger_error "Deployment verification failed." ;;
        server_shutdown httpd ;;
        (if truthy backup_path then rollback backup_path config else ret tt) ;;
        sys_exit 1
      else
        logger_info "Deployment SUCCESSFUL. System is online." ;;
        try_except is_KeyboardInterrupt
          sleep_until_interrupt
          (fun _ =>
             logger_info "Stopping server..." ;;
             server_shutdown httpd ;;
             sys_exit 0)
  end.

(** The stages of [main] that come before the snapshot. *)
Definition prologue : Py Config :=
  logger_info "Starting deployment process..." ;;
  config <- load_config ;;
  check_dependencies ;;
  setup_environment config ;;
  ret config.

(** The exit status of the process that ran [main]. *)
Definition exit_status (r : outcome unit) : Z :=
  match r with
  | Ok _ => 0
  | Raise (SystemExit code) => code
  | Raise _ => 1
  end.

End Program.

(** ** SecureHTTPRequestHandler

    The base class keeps the header lines of the response being built in
    [_headers_buffer]; [send_header] appends one line, and the base
    [end_headers] writes the buffered block to the connection and empties
    the buffer (for a request of HTTP/1.0 or later). *)

Record SecureHTTPRequestHandler := {
  h_directory : string;
  h_config : option Config;
  h_headers_buffer : list (string * string);
  (* the header blocks written so far, one per response *)
  h_wfile : list (list (string * string))
}.

Definition send_header (keyword value : string)
    (self : SecureHTTPRequestHandler) : SecureHTTPRequestHandler :=
  {| h_directory := h_directory self;
     h_config := h_config self;
     h_headers_buffer := h_headers_buffer self ++ [(keyword, value)];
     h_wfile := h_wfile self |}.

Definition super_end_headers (self : SecureHTTPRequestHandler)
    : SecureHTTPRequestHandler :=
  {| h_directory := h_directory self;
     h_config := h_config self;
     h_headers_buffer := [];
     h_wfile := h_wfile self ++ [h_headers_buffer self] |}.

(** [self.config['security'].get('headers', {}).items()], when
    [self.config and 'security' in self.config]; nothing otherwise. *)
Definition security_headers (config : option Config) : list (string * string) :=
  match config with
  | Some c =>
      match security c with
      | Some sec => match headers sec with Some hs => hs | None => [] end
      | None => []
      end
  | None => []
  end.

Definition end_headers (self : SecureHTTPRequestHandler)
    : SecureHTTPRequestHandler :=
  super_end_headers
    (fold_left (fun h kv => send_header (fst kv) (snd kv) h)
               (security_headers (h_config self)) self).

(** A response of the static-file logic: it sends its own header lines
    ([Server], [Date], [Content-type], ...) and then calls
    [self.end_headers()]. *)
Definition respond (defaults : list (string * string))
    (self : SecureHTTPRequestHandler) : SecureHTTPRequestHandler :=
  end_headers
    (fold_left (fun h kv => send_header (fst kv) (snd kv) h) defaults self).

(** The header block of the last response written. *)
Definition last_response (self : SecureHTTPRequestHandler)
    : list (string * string) :=
  last (h_wfile self) [].

(** *** Reading a header block

    [send_header] writes the line [keyword: value]; a client built on
    [http.client] (such as [requests]) splits each line at its first
    colon, drops the blanks that lead the value and looks names up
    without regard to case. *)

Definition lower_char (c : ascii) : ascii :=
  let n := nat_of_ascii c in
  if ((65 <=? n) && (n <=? 90))%nat then ascii_of_nat (n + 32) else c.

(** [s.lower()], for a string of ASCII characters. *)
Fixpoint lower (s : string) : string :=
  match s with
  | EmptyString => EmptyString
  | String c s' => String (lower_char c) (lower s')
  end.

Definition is_blank (c : ascii) : bool :=
  let n := nat_of_ascii c in ((n =? 32) || (n =? 9))%nat.

(** [s.lstrip(' \t')] *)
Fixpoint lstrip (s : string) : string :=
  match s with
  | EmptyString => EmptyString
  | String c s' => if is_blank c then lstrip s' else s
  end.

Definition same_name (a b : string) : bool := (lower a =? lower b)%string.

(** The lines a client reads as they were sent: the name is a non-empty
    run of printable ASCII characters other than the colon, the value
    has no control character but the tab (a line break would end the
    line), the line is within the 65536 bytes of [http.client] and the
    block within its 100 lines, the closing blank line included. *)
Definition name_char (c : ascii) : bool :=
  let n := nat_of_ascii c in ((33 <=? n) && (n <=? 126) && negb (n =? 58))%nat.

Definition value_char (c : ascii) : bool :=
  let n := nat_of_ascii c in
  ((n =? 9) || ((32 <=? n) && (n <=? 126)) || (160 <=? n))%nat.

Fixpoint all_chars (f : ascii -> bool) (s : string) : bool :=
  match s with
  | EmptyString => true
  | String c s' => f c && all_chars f s'
  end.

Definition line_ok (kv : string * string) : bool :=
  negb (fst kv =? "")%string &&
  all_chars name_char (fst kv) &&
  all_chars value_char (snd kv) &&
  (N.of_nat (String.length (fst kv)) + N.of_nat (String.length (snd kv)) + 4
   <=? 65536)%N.

Definition readable (block : list (string * string)) : bool :=
  (List.length block <? 100)%nat && forallb line_ok block.

(** Two ways a client reads one header of a block with repeated names:
    the first line of that name ([http.client]'s [getheader] of a name
    sent once, [msg.get]), or all its values joined by a comma (as
    [requests] gives [response.headers[name]]). *)
Fixpoint first_value (name : string) (block : list (string * string))
    : option string :=
  match block with
  | [] => None
  | (k, v) :: rest =>
      if same_name k name then Some (lstrip v) else first_value name rest
  end.

Definition all_values (name : string) (block : list (string * string))
    : list string :=
  map (fun kv => lstrip (snd kv)) (filter (fun kv => same_name (fst kv) name) block).

Definition joined_value (name : string) (block : list (string * string))
    : option string :=
  match all_values name block with
  | [] => None
  | vs => Some (String.concat ", " vs)
  end.

(** ** A file system of trees

    The disk is the tree under the working directory: a node is a regular
    file with its bytes, or a directory with its entries in the order
    [os.listdir] reports them.  Links, permissions and time stamps are
    left out.  A path is resolved from the working directory by its
    components; the empty path, an absolute path and a path with a [..]
    component leave the tree: nothing is found there and nothing can be
    written there.  A trailing slash is ignored. *)

#[warnings="-register-all"]
Inductive node :=
| File (data : string)
| Dir (entries : list (string * node)).

Definition path : Type := list string.

Fixpoint lookup_entry (n : string) (es : list (string * node)) : option node :=
  match es with
  | [] => None
  | (m, x) :: es' => if (n =? m)%string then Some x else lookup_entry n es'
  end.

(** Replace the entry [n], or add it at the end. *)
Fixpoint set_entry (n : string) (new : node) (es : list (string * node))
    : list (string * node) :=
  match es with
  | [] => [(n, new)]
  | (m, x) :: es' =>
      if (n =? m)%string then (n, new) :: es' else (m, x) :: set_entry n new es'
  end.

Definition del_entry (n : string) (es : list (string * node))
    : list (string * node) :=
  filter (fun e => negb (n =? fst e)%string) es.

Fixpoint get (p : path) (t : node) : option node :=
  match p with
  | [] => Some t
  | n :: p' =>
      match t with
      | Dir es =>
          match lookup_entry n es with
          | Some c => get p' c
          | None => None
          end
      | File _ => None
      end
  end.

(** Write [new] at [p], creating the missing directories on the way (as
    [os.makedirs] does); [None] when a regular file is in the way. *)
Fixpoint put (p : path) (new : node) (t : node) : option node :=
  match p with
  | [] => Some new
  | n :: p' =>
      match t with
      | Dir es =>
          let child := match lookup_entry n es with
                       | Some c => c
                       | None => Dir []
                       end in
          match put p' new child with
          | Some c' => Some (Dir (set_entry n c' es))
          | None => None
          end
      | File _ => None
      end
  end.

(** Remove the entry at [p] with all below it. *)
Fixpoint remove (p : path) (t : node) : node :=
  match p with
  | [] => t
  | n :: p' =>
      match t with
      | Dir es =>
          match p' with
          | [] => Dir (del_entry n es)
          | _ =>
              match lookup_entry n es with
              | Some c => Dir (set_entry n (remove p' c) es)
              | None => t
              end
          end
      | File _ => t
      end
  end.

Fixpoint is_prefix (p q : path) : bool :=
  match p, q with
  | [], _ => true
  | n :: p', m :: q' => (n =? m)%string && is_prefix p' q'
  | _ :: _, [] => false
  end.

Fixpoint path_eqb (p q : path) : bool :=
  match p, q with
  | [], [] => true
  | n :: p', m :: q' => (n =? m)%string && path_eqb p' q'
  | _, _ => false
  end.

(** No regular file stands where [p] needs a directory, so [put] can
    write at [p]. *)
Fixpoint no_file_on_way (p : path) (t : node) : bool :=
  match p with
  | [] => true
  | n :: p' =>
      match t with
      | Dir es =>
          match lookup_entry n es with
          | Some c => no_file_on_way p' c
          | None => true
          end
      | File _ => false
      end
  end.

(** *** Paths as strings *)

(** [s.split('/')] *)
Fixpoint split_slash (s : string) : list string :=
  match s with
  | EmptyString => [""]
  | String c s' =>
      if Ascii.eqb c "/" then "" :: split_slash s'
      else match split_slash s' with
           | x :: xs => String c x :: xs
           | [] => [String c ""]
           end
  end.

Definition is_component (c : string) : bool :=
  negb (c =? "")%string && negb (c =? ".")%string.

Definition components (s : string) : path :=
  filter is_component (split_slash s).

Definition resolve (s : string) : option path :=
  if (s =? "")%string then None
  else if startswith s "/" then None
  else if str_in ".." (components s) then None
  else Some (components s).

(** [os.path.basename] *)
Definition basename (s : string) : string := last (split_slash s) "".

Fixpoint has_slash (s : string) : bool :=
  match s with
  | EmptyString => false
  | String c s' => Ascii.eqb c "/" || has_slash s'
  end.

(** A name a directory entry can have. *)
Definition valid_name (s : string) : bool :=
  is_component s && negb (s =? "..")%string && negb (has_slash s).

(** *** The operations of [os] and [shutil] on the tree *)

Definition FileNotFoundError {A} (p : string) : outcome A :=
  Raise (Exception "FileNotFoundError"
           ("[Errno 2] No such file or directory: '" ++ p ++ "'")).
Definition FileExistsError {A} (p : string) : outcome A :=
  Raise (Exception "FileExistsError" ("[Errno 17] File exists: '" ++ p ++ "'")).
Definition NotADirectoryError {A} (p : string) : outcome A :=
  Raise (Exception "NotADirectoryError"
           ("[Errno 20] Not a directory: '" ++ p ++ "'")).
Definition IsADirectoryError {A} (p : string) : outcome A :=
  Raise (Exception "IsADirectoryError" ("[Errno 21] Is a directory: '" ++ p ++ "'")).
Definition PermissionError {A} (p : string) : outcome A :=
  Raise (Exception "PermissionError" ("[Errno 13] Permission denied: '" ++ p ++ "'")).
Definition InvalidArgument {A} (p : string) : outcome A :=
  Raise (Exception "OSError" ("[Errno 22] Invalid argument: '" ++ p ++ "'")).
Definition SameFileError {A} (p q : string) : outcome A :=
  Raise (Exception "SameFileError"
           ("'" ++ p ++ "' and '" ++ q ++ "' are the same file")).
Definition shutil_Error {A} (p : string) : outcome A :=
  Raise (Exception "Error" ("[Errno 36] File name too long: '" ++ p ++ "'")).

Definition tree_exists (p : string) (t : node) : bool :=
  match resolve p with
  | Some r => match get r t with Some _ => true | None => false end
  | None => false
  end.

Definition tree_isdir (p : string) (t : node) : bool :=
  match resolve p with
  | Some r => match get r t with Some (Dir _) => true | _ => false end
  | None => false
  end.

Definition tree_listdir (p : string) (t : node) : outcome (list string) :=
  match resolve p with
  | Some r =>
      match get r t with
      | Some (Dir es) => Ok (map fst es)
      | Some (File _) => NotADirectoryError p
      | None => FileNotFoundError p
      end
  | None => FileNotFoundError p
  end.

(** [os.makedirs(p)], with [exist_ok=False]. *)
Definition tree_makedirs (p : string) (t : node) : outcome unit * node :=
  match resolve p with
  | Some r =>
      match get r t with
      | Some _ => (FileExistsError p, t)
      | None =>
          match put r (Dir []) t with
          | Some t' => (Ok tt, t')
          | None => (NotADirectoryError p, t)
          end
      end
  | None => ((if (p =? "")%string then FileNotFoundError p else PermissionError p), t)
  end.

(** [shutil.rmtree(p)]: of the working directory itself it deletes the
    entries and then fails to remove the directory. *)
Definition tree_rmtree (p : string) (t : node) : outcome unit * node :=
  match resolve p with
  | Some r =>
      match get r t with
      | Some (Dir _) =>
          match r with
          | [] => (InvalidArgument p, Dir [])
          | _ => (Ok tt, remove r t)
          end
      | Some (File _) => (NotADirectoryError p, t)
      | None => (FileNotFoundError p, t)
      end
  | None => (FileNotFoundError p, t)
  end.

(** The copy descends into itself without end when the destination lies
    below an entry the source already has. *)
Definition runs_away (rs rd : path) (es : list (string * node)) : bool :=
  is_prefix rs rd &&
  match skipn (List.length rs) rd with
  | n :: _ => match lookup_entry n es with Some _ => true | None => false end
  | [] => false
  end.

(** [shutil.copytree(src, dst)]: the entries of [src] are listed, [dst] is
    made with [os.makedirs] (it must not exist), and the entries are
    copied below it.  Of a copy that runs away only the error is
    modelled, not the partial copy it leaves. *)
Definition tree_copytree (src dst : string) (t : node) : outcome unit * node :=
  match resolve src with
  | Some rs =>
      match get rs t with
      | Some (Dir es) =>
          match resolve dst with
          | Some rd =>
              match get rd t with
              | Some _ => (FileExistsError dst, t)
              | None =>
                  if runs_away rs rd es then (shutil_Error dst, t)
                  else match put rd (Dir es) t with
                       | Some t' => (Ok tt, t')
                       | None => (NotADirectoryError dst, t)
                       end
              end
          | None => (PermissionError dst, t)
          end
      | Some (File _) => (NotADirectoryError src, t)
      | None => (FileNotFoundError src, t)
      end
  | None => (FileNotFoundError src, t)
  end.

(** [shutil.copy2(src, dst)]: when [dst] is a directory the file goes
    into it under the base name of [src]; the directory that is to hold
    the file must exist. *)
Definition tree_copy2 (src dst : string) (t : node) : outcome unit * node :=
  match resolve src with
  | Some rs =>
      match get rs t with
      | Some (File data) =>
          match resolve dst with
          | Some rd =>
              let rd' := match get rd t with
                         | Some (Dir _) => (rd ++ [basename src])%list
                         | _ => rd
                         end in
              if path_eqb rs rd' then (SameFileError src dst, t)
              else
                match get rd' t with
                | Some (Dir _) =>
                    (IsADirectoryError (os_path_join dst (basename src)), t)
                | _ =>
                    match get (removelast rd') t with
                    | Some (Dir _) =>
                        match put rd' (File data) t with
                        | Some t' => (Ok tt, t')
                        | None => (NotADirectoryError dst, t)
                        end
                    | Some (File _) => (NotADirectoryError dst, t)
                    | None => (FileNotFoundError dst, t)
                    end
                end
          | None => (PermissionError dst, t)
          end
      | Some (Dir _) => (IsADirectoryError src, t)
      | None => (FileNotFoundError src, t)
      end
  | None => (FileNotFoundError src, t)
  end.

#[export] Instance tree_fs : FileSystem node := {
  fs_exists := tree_exists;
  fs_isdir := tree_isdir;
  fs_listdir := tree_listdir;
  fs_makedirs := tree_makedirs;
  fs_rmtree := tree_rmtree;
  fs_copytree := tree_copytree;
  fs_copy2 := tree_copy2
}.

(** ** Vocabulary of the statements *)

(** The tree at the content root, if there is one. *)
Definition content_root (config : Config) (t : node) : option node :=
  match resolve (root_dir (server config)) with
  | Some r => get r t
  | None => None
  end.

(** The path [backup_current_version] gives the snapshot it takes. *)
Definition snapshot_name (clock : string) : string :=
  os_path_join BACKUP_DIR ("backup_" ++ clock).

(** The directory [os.path.join(root_dir, item)] puts [item] in: the
    working directory itself when [root_dir] is empty. *)
Definition publish_base (root : string) : option path :=
  if (root =? "")%string then Some [] else resolve root.

(** The names [os.listdir('.')] reports. *)
Definition top_names (t : node) : list string :=
  match t with
  | Dir es => map fst es
  | File _ => []
  end.

(** [q] is neither at or below what [dst] names nor above it. *)
Definition outside (dst : string) (q : path) : Prop :=
  forall d, resolve dst = Some d ->
            is_prefix d q = false /\ is_prefix q d = false.


(** How many of [items] the publisher does not skip. *)
Definition copied (excludes : list string) (items : list string) : Z :=
  Z.of_nat (List.length (filter (fun i => negb (skipped excludes i)) items)).

(** The [k]-th GET of the process is answered with status 200. *)
Definition answers_200 (http : nat -> string -> Z -> get_result)
    (url : string) (t : Z) (k : nat) : bool :=
  match http k url t with
  | Response code => code =? 200
  | GetRaises _ _ => false
  end.

(** ** Footprints of computations *)

(** [m] leaves the part [f] of the world as it is, however it ends. *)
Definition preserves {disk A X} (f : world disk -> X) (m : M disk A) : Prop :=
  forall w r w', m w = (r, w') -> f w' = f w.

(** [m] raises nothing but subclasses of [Exception]. *)
Definition raises_exceptions_only {disk A} (m : M disk A) : Prop :=
  forall w e w', m w = (Raise e, w') -> is_Exception e = true.

Definition exception_or_value {A} (r : outcome A) : Prop :=
  match r with
  | Ok _ => True
  | Raise e => is_Exception e = true
  end.

(** A file system whose operations fail with [OSError]s and the like,
    never with [SystemExit] or [KeyboardInterrupt]. *)
Record raises_os_errors {disk} (FS : FileSystem disk) : Prop := {
  listdir_raises : forall p d, exception_or_value (fs_listdir p d);
  makedirs_raises : forall p d, exception_or_value (fst (fs_makedirs p d));
  rmtree_raises : forall p d, exception_or_value (fst (fs_rmtree p d));
  copytree_raises : forall s p d, exception_or_value (fst (fs_copytree s p d));
  copy2_raises : forall s p d, exception_or_value (fst (fs_copy2 s p d))
}.

(** What the network answers, which no stage changes. *)
Definition peers {disk} (w : world disk) :=
  (w_http w, w_connect_ex w, w_bind w).

(** What the stages reach of the network and of time: the GETs sent, the
    seconds slept, the servers running and the addresses bound. *)
Definition network_side {disk} (w : world disk) :=
  (w_gets w, w_sleeps w, w_serving w, w_bind_attempts w).

(** ** A device that fails

    The tree together with the number of changes the device still
    carries out; once that is used up every change raises an I/O error
    and leaves the tree as it is.  Reading never fails. *)

Definition io_error {A} : outcome A :=
  Raise (Exception "OSError" "[Errno 5] Input/output error").

Definition charged (op : node -> outcome unit * node) (d : node * nat)
    : outcome unit * (node * nat) :=
  match snd d with
  | O => (io_error, d)
  | S k => let (r, t') := op (fst d) in (r, (t', k))
  end.

#[export] Instance failing_fs : FileSystem (node * nat) := {
  fs_exists p d := tree_exists p (fst d);
  fs_isdir p d := tree_isdir p (fst d);
  fs_listdir p d := tree_listdir p (fst d);
  fs_makedirs p := charged (tree_makedirs p);
  fs_rmtree p := charged (tree_rmtree p);
  fs_copytree src dst := charged (tree_copytree src dst);
  fs_copy2 src dst := charged (tree_copy2 src dst)
}.

(** ** Scenarios used to run the program *)

Module Scenario.

Definition config : Config :=
  {| server := {| host := "0.0.0.0"; port := 8080; root_dir := "www" |};
     health_check_cfg := {| endpoint := "/"; retries := 3; timeout := 5 |};
     security :=
       Some {| headers := Some [("X-Frame-Options", "DENY");
                                ("X-Content-Type-Options", "nosniff")] |} |}.

(** A working tree with a new page and assets, and the content root
    holding the page of the previous rollout. *)
Definition tree : node :=
  Dir [("index.html", File "<h1>new</h1>");
       ("deploy.py", File "#!/usr/bin/env python3");
       (".git", Dir [("HEAD", File "ref: refs/heads/main")]);
       ("assets", Dir [("site.css", File "body {}")]);
       ("www", Dir [("index.html", File "<h1>old</h1>")])].

Definition refused : get_result :=
  GetRaises "ConnectionError" "Connection refused".

(** Nothing listens on the port, binding works, and the server answers
    200 from the second GET on. *)
Definition world_on {disk} (d : disk) : world disk :=
  {| w_disk := d;
     w_clock := "20240101_120000";
     w_log := [];
     w_config := ConfigJSON config;
     w_connect_ex := fun _ _ => Ok 111;
     w_bind := fun _ _ => None;
     w_bind_attempts := [];
     w_serving := [];
     w_http := fun n _ _ => if (n <? 1)%nat then refused else Response 200;
     w_gets := 0%nat;
     w_sleeps := 0%nat;
     w_interrupt_after := 2%nat |}.

Definition healthy : world node := world_on tree.

(** The same, with another process accepting connections on the port. *)
Definition port_taken : world node :=
  {| w_disk := tree;
     w_clock := "20240101_120000";
     w_log := [];
     w_config := ConfigJSON config;
     w_connect_ex := fun _ _ => Ok 0;
     w_bind := fun _ _ => Some (Exception "OSError" "[Errno 98] Address already in use");
     w_bind_attempts := [];
     w_serving := [];
     w_http := fun _ _ _ => refused;
     w_gets := 0%nat;
     w_sleeps := 0%nat;
     w_interrupt_after := 0%nat |}.


Definition snapshot_path : string := "deploy_backups/backup_20240101_120000".

(** The tree once the snapshot is taken and the new content published. *)
Definition published_tree : node :=
  Dir [("index.html", File "<h1>new</h1>");
       ("deploy.py", File "#!/usr/bin/env python3");
       (".git", Dir [("HEAD", File "ref: refs/heads/main")]);
       ("assets", Dir [("site.css", File "body {}")]);
       ("www", Dir [("index.html", File "<h1>new</h1>");
                    ("assets", Dir [("site.css", File "body {}")])]);
       ("deploy_backups",
        Dir [("backup_20240101_120000",
              Dir [("index.html", File "<h1>old</h1>")])])].

(** A device that carries out one more change and then fails. *)
Definition worn_out_after_publish : world (node * nat) :=
  world_on (published_tree, 1%nat).

Definition worn_out_before_publish : world (node * nat) :=
  world_on (tree, 1%nat).

Definition config_no_retries : Config :=
  {| server := server config;
     health_check_cfg := {| endpoint := "/"; retries := 0; timeout := 5 |};
     security := security config |}.

(** A handler whose configuration sets a header the static-file logic
    sends too. *)
Definition config_hiding_server : Config :=
  {| server := server config;
     health_check_cfg := health_check_cfg config;
     security := Some {| headers := Some [("Server", "hidden");
                                          ("X-Frame-Options", "DENY")] |} |}.

Definition handler : SecureHTTPRequestHandler :=
  {| h_directory := "www";
     h_config := Some config_hiding_server;
     h_headers_buffer := [];
     h_wfile := [] |}.

(** The header lines of a 200 response of the static-file logic. *)
Definition default_headers : list (string * string) :=
  [("Server", "SimpleHTTP/0.6 Python/3.11.4");
   ("Date", "Mon, 01 Jan 2024 12:00:00 GMT");
   ("Content-type", "text/html");
   ("Content-Length", "12")].

(** A regular file of the working tree meets a directory of the same
    name in the content root. *)
Definition file_over_dir : node :=
  Dir [("index.html", File "<h1>new</h1>");
       ("docs", File "moved to the wiki");
       ("www", Dir [("index.html", File "<h1>old</h1>");
                    ("docs", Dir [("guide.html", File "<h1>guide</h1>")])])].

(** A directory of the working tree meets a regular file of the same
    name in the content root. *)
Definition dir_over_file : node :=
  Dir [("index.html", File "<h1>new</h1>");
       ("docs", Dir [("guide.html", File "<h1>guide</h1>")]);
       ("www", Dir [("index.html", File "<h1>old</h1>");
                    ("docs", File "see the wiki")])].






(** A working tree with nothing to publish: all its entries are excluded
    or hidden. *)
Definition nothing_new : node :=
  Dir [("deploy.py", File "#!/usr/bin/env python3");
       (".git", Dir [("HEAD", File "ref: refs/heads/main")]);
       ("www", Dir [("index.html", File "<h1>old</h1>")])].

(** No configuration file in the working directory. *)
Definition unconfigured : world node :=
  {| w_disk := tree;
     w_clock := "20240101_120000";
     w_log := [];
     w_config := ConfigMissing;
     w_connect_ex := fun _ _ => Ok 111;
     w_bind := fun _ _ => None;
     w_bind_attempts := [];
     w_serving := [];
     w_http := fun _ _ _ => Response 200;
     w_gets := 0%nat;
     w_sleeps := 0%nat;
     w_interrupt_after := 0%nat |}.

(** The stages of the rollout that is verified. *)
Definition healthy_set_up : world node :=
  Eval vm_compute in snd (prologue healthy).

Definition healthy_backed_up : world node :=
  Eval vm_compute in snd (backup_current_version config healthy_set_up).

Definition healthy_published : world node :=
  Eval vm_compute in snd (deploy_files config healthy_backed_up).

Definition healthy_serving : world node :=
  Eval vm_compute in snd (start_server config healthy_published).

Definition healthy_checked : world node :=
  Eval vm_compute in snd (health_check config healthy_serving).

(** A first rollout, with no content root yet, on a device that carries
    out the two changes of the set-up and then fails. *)
Definition first_rollout : world (node * nat) :=
  world_on (Dir [("index.html", File "<h1>new</h1>")], 2%nat).

Definition first_rollout_set_up : world (node * nat) :=
  Eval vm_compute in snd (prologue first_rollout).

Definition first_rollout_failed : world (node * nat) :=
  Eval vm_compute in snd (deploy_files config first_rollout_set_up).

(** A second run within the second of the first: the snapshot of that
    time stamp is there already. *)
Definition rerun : world node := world_on published_tree.

Definition rerun_set_up : world node :=
  Eval vm_compute in snd (prologue rerun).

(** A handler whose configured headers the static-file logic does not
    send itself. *)
Definition plain_handler : SecureHTTPRequestHandler :=
  {| h_directory := "www";
     h_config := Some config;
     h_headers_buffer := [];
     h_wfile := [] |}.

(** A configuration that serves the backups directory itself, and a
    working tree in which that directory holds a page. *)
Definition config_root_in_backups : Config :=
  {| server := {| host := "0.0.0.0"; port := 8080; root_dir := "deploy_backups" |};
     health_check_cfg := health_check_cfg config;
     security := security config |}.

Definition backups_as_root : world node :=
  {| w_disk := Dir [("index.html", File "<h1>new</h1>");
                    ("deploy_backups", Dir [("index.html", File "<h1>old</h1>")])];
     w_clock := "20240101_120000";
     w_log := [];
     w_config := ConfigJSON config_root_in_backups;
     w_connect_ex := fun _ _ => Ok 111;
     w_bind := fun _ _ => None;
     w_bind_attempts := [];
     w_serving := [];
     w_http := fun _ _ _ => Response 200;
     w_gets := 0%nat;
     w_sleeps := 0%nat;
     w_interrupt_after := 0%nat |}.

Definition backups_as_root_captured : world node :=
  Eval vm_compute in snd (backup_current_version config_root_in_backups backups_as_root).

Definition backups_as_root_restored : world node :=
  Eval vm_compute in
    snd (rollback (Some snapshot_path) config_root_in_backups backups_as_root_captured).

End Scenario.

(** * Theorems *)

Section Generic.
Context {disk : Type} {FS : FileSystem disk}.
Implicit Type w : world disk.
Implicit Type config : Config.

(** ** The health verifier *)

Lemma health_attempt_hit config url i w :
  answers_200 (w_http w) url (timeout (health_check_cfg config)) (w_gets w) = true ->
  health_attempt config url i tt w =
    (Ok (inl true),
     set_log (w_log w ++ [(INFO, "Health check PASSED.")])
             (set_gets (S (w_gets w)) w)).
Proof.
  unfold answers_200, health_attempt, try_except, bind, requests_get.
  destruct (w_http w (w_gets w) url _) as [code|cls msg]; [|discriminate].
  intros ->. reflexivity.
Qed.

Lemma health_attempt_miss config url i w :
  answers_200 (w_http w) url (timeout (health_check_cfg config)) (w_gets w) = false ->
  exists w',
    health_attempt config url i tt w = (Ok (inr tt), w') /\
    w_http w' = w_http w /\
    w_gets w' = S (w_gets w) /\
    w_sleeps w' = S (w_sleeps w) /\
    w_disk w' = w_disk w.
Proof.
  unfold answers_200, health_attempt, try_except, bind, requests_get.
  destruct (w_http w (w_gets w) url _) as [code|cls msg].
  - intros ->. eexists. split; [reflexivity|]. simpl.
    repeat split. apply Nat.add_1_r.
  - intros _. eexists. split; [reflexivity|]. simpl.
    repeat split. apply Nat.add_1_r.
Qed.

(** The loop stops at the first GET answered 200 and otherwise makes one
    GET for each index. *)
Lemma health_loop config url (idx : list Z) : forall w,
  let t := timeout (health_check_cfg config) in
  exists r w',
    for_in idx tt (health_attempt config url) w = (Ok r, w') /\
    w_http w' = w_http w /\
    w_disk w' = w_disk w /\
    ((r = inl true /\
      exists i, (i < List.length idx)%nat /\
                w_gets w' = (w_gets w + i + 1)%nat /\
                answers_200 (w_http w) url t (w_gets w + i) = true /\
                forall j, (j < i)%nat ->
                          answers_200 (w_http w) url t (w_gets w + j) = false)
     \/
     (r = inr tt /\
      w_gets w' = (w_gets w + List.length idx)%nat /\
      forall j, (j < List.length idx)%nat ->
                answers_200 (w_http w) url t (w_gets w + j) = false)).
Proof.
  induction idx as [|i idx IH]; intros w t.
  - exists (inr tt), w. split; [reflexivity|]. split; [reflexivity|].
    split; [reflexivity|].
    right. split; [reflexivity|]. simpl. split; [lia|]. intros j Hj. lia.
  - destruct (answers_200 (w_http w) url t (w_gets w)) eqn:Hit.
    + eexists _, _. simpl for_in. unfold bind at 1.
      rewrite (health_attempt_hit _ _ _ _ Hit).
      split; [reflexivity|]. split; [reflexivity|]. split; [reflexivity|].
      left. split; [reflexivity|]. exists 0%nat. simpl.
      rewrite Nat.add_0_r. repeat split; try lia; try assumption.
    + destruct (health_attempt_miss _ _ i _ Hit) as (w1 & E1 & Hh & Hg & _ & Hd).
      destruct (IH w1) as (r & w' & E & Hh' & Hd' & Hcase).
      exists r, w'. simpl for_in. unfold bind at 1. rewrite E1.
      split; [exact E|]. split; [congruence|]. split; [congruence|].
      rewrite Hh, Hg in Hcase.
      destruct Hcase as [(-> & k & Hk & Hgets & Hok & Hbefore)
                        |(-> & Hgets & Hnone)].
      * left. split; [reflexivity|]. exists (S k). simpl.
        repeat split; try lia.
        -- replace (w_gets w + S k)%nat with (S (w_gets w) + k)%nat by lia.
           exact Hok.
        -- intros [|j] Hj.
           ++ rewrite Nat.add_0_r. exact Hit.
           ++ replace (w_gets w + S j)%nat with (S (w_gets w) + j)%nat by lia.
              apply Hbefore. lia.
      * right. split; [reflexivity|]. simpl. split; [lia|].
        intros [|j] Hj.
        -- rewrite Nat.add_0_r. exact Hit.
        -- replace (w_gets w + S j)%nat with (S (w_gets w) + j)%nat by lia.
           apply Hnone. lia.
Qed.

Lemma range_length (n : Z) : List.length (range n) = Z.to_nat n.
Proof. unfold range. now rewrite length_map, length_seq. Qed.

(** C4. [health_check] always returns (no failure of an attempt gets
    past it), makes at most [retries] GETs, returns [True] exactly when
    one of the GETs it may make is answered 200, has then stopped right
    after the first such GET, and returns [False] only after all
    [retries] GETs. *)
Theorem health_check_bounded_retries config w :
  let url := health_url config in
  let t := timeout (health_check_cfg config) in
  let n := Z.to_nat (retries (health_check_cfg config)) in
  exists b w',
    health_check config w = (Ok b, w') /\
    (w_gets w' <= w_gets w + n)%nat /\
    (b = true <->
     exists i, (i < n)%nat /\ answers_200 (w_http w) url t (w_gets w + i) = true) /\
    (b = true ->
     exists i, (i < n)%nat /\
               w_gets w' = (w_gets w + i + 1)%nat /\
               answers_200 (w_http w) url t (w_gets w + i) = true /\
               forall j, (j < i)%nat ->
                         answers_200 (w_http w) url t (w_gets w + j) = false) /\
    (b = false -> w_gets w' = (w_gets w + n)%nat).
Proof.
  intros url t n.
  pose (w0 := set_log (w_log w ++ [(INFO, "Running health check on " ++ url ++ "...")]) w).
  destruct (health_loop config url (range (retries (health_check_cfg config))) w0)
    as (r & w1 & E & _ & _ & Hcase).
  rewrite range_length in Hcase. fold n t in Hcase.
  change (w_http w0) with (w_http w) in Hcase.
  change (w_gets w0) with (w_gets w) in Hcase.
  unfold health_check. fold url.
  unfold bind at 1. unfold logger_info at 1, logger at 1. fold w0.
  unfold bind at 1. rewrite E.
  destruct Hcase as [(-> & i & Hi & Hg & Hok & Hbefore)|(-> & Hg & Hnone)].
  - exists true, w1. split; [reflexivity|].
    split; [lia|]. split; [|split].
    + split; [intros _; exists i; auto | reflexivity].
    + intros _. exists i. auto.
    + discriminate.
  - eexists false, _. split; [reflexivity|]. simpl.
    split; [lia|]. split; [|split].
    + split; [discriminate|]. intros (i & Hi & Hok).
      rewrite (Hnone i Hi) in Hok. discriminate.
    + discriminate.
    + intros _. exact Hg.
Qed.

Lemma health_check_disk config w r w' :
  health_check config w = (r, w') -> w_disk w' = w_disk w.
Proof.
  unfold health_check. unfold bind at 1. unfold logger_info at 1, logger at 1.
  set (w0 := set_log _ w).
  destruct (health_loop config (health_url config)
              (range (retries (health_check_cfg config))) w0)
    as (x & w1 & E & _ & Hd & _).
  unfold bind at 1. rewrite E. change (w_disk w0) with (w_disk w) in Hd.
  destruct x as [b|[]].
  - intros [= <- <-]. exact Hd.
  - intros [= <- <-]. exact Hd.
Qed.

(** C10. With [retries = 0] no GET is made and the answer is [False]. *)
Theorem health_check_zero_retries config w :
  retries (health_check_cfg config) = 0 ->
  exists w',
    health_check config w = (Ok false, w') /\
    w_gets w' = w_gets w /\
    w_sleeps w' = w_sleeps w /\
    w_log w' =
      (w_log w ++
       [(INFO, ("Running health check on " ++ health_url config ++ "...")%string);
        (ERROR, "Health check FAILED.")])%list.
Proof.
  intros Hr. unfold health_check. rewrite Hr.
  eexists. split; [reflexivity|]. simpl.
  rewrite <- app_assoc. repeat split.
Qed.

(** ** The static server *)

(** C8. When the probe of (host-or-loopback, port) connects,
    [start_server] returns [None] having logged the error: no
    [TCPServer] was constructed, so nothing was bound and no serving
    thread was started. *)
Theorem start_server_port_in_use config w :
  w_connect_ex w (probe_host (host (server config))) (port (server config)) = Ok 0 ->
  exists w',
    start_server config w = (Ok None, w') /\
    w_bind_attempts w' = w_bind_attempts w /\
    w_serving w' = w_serving w /\
    w_log w' =
      (w_log w ++
       [(ERROR, ("Port " ++ str_Z (port (server config)) ++ " is already in use.")%string)])%list.
Proof.
  intros Hprobe.
  unfold start_server, try_except, bind, socket_connect_ex.
  rewrite Hprobe. simpl.
  eexists. split; [reflexivity|]. repeat split.
Qed.

Lemma start_server_disk config w r w' :
  start_server config w = (r, w') -> w_disk w' = w_disk w.
Proof.
  unfold start_server, try_except, bind, socket_connect_ex, TCPServer.
  destruct (w_connect_ex w _ _) as [rc|e]; simpl.
  - destruct (rc =? 0); simpl.
    + intros [= <- <-]. reflexivity.
    + destruct (w_bind w _ _) as [e|]; simpl.
      * destruct (is_Exception e); simpl; intros [= <- <-]; reflexivity.
      * intros [= <- <-]. reflexivity.
  - destruct (is_Exception e); simpl; intros [= <- <-]; reflexivity.
Qed.

(** ** Rollback *)

(** C2, as the code has it.  When the content root existed and was
    removed and the copy from the snapshot then raises, [rollback]
    catches the exception: it logs it at CRITICAL, the highest level,
    and returns normally to its caller. *)
Theorem rollback_copy_failure_is_logged config w (snapshot : string) d1 d2 e :
  snapshot <> "" ->
  fs_exists (root_dir (server config)) (w_disk w) = true ->
  fs_rmtree (root_dir (server config)) (w_disk w) = (Ok tt, d1) ->
  fs_copytree snapshot (root_dir (server config)) d1 = (Raise e, d2) ->
  is_Exception e = true ->
  exists w',
    rollback (Some snapshot) config w = (Ok tt, w') /\
    w_disk w' = d2 /\
    w_log w' =
      (w_log w ++
       [(WARNING, "Initiating ROLLBACK...");
        (CRITICAL, ("Rollback failed: " ++ str_exn e)%string)])%list /\
    forall l, (level_rank l <= level_rank CRITICAL)%nat.
Proof.
  intros Hpath Hex Hrm Hcp Hexn.
  unfold rollback, truthy.
  destruct (String.eqb_spec snapshot "") as [->|_]; [contradiction|].
  simpl negb. cbv iota.
  unfold try_except, bind, logger_warning, logger, os_path_exists,
    shutil_rmtree, shutil_copytree, on_disk, path_str.
  destruct w; simpl in *.
  rewrite Hex; simpl. rewrite Hrm; simpl. rewrite Hcp; simpl. rewrite Hexn.
  eexists. split; [reflexivity|]. simpl.
  rewrite <- app_assoc. repeat split.
  intros []; simpl; lia.
Qed.

(** ** The controller *)

(** C1, as the code has it.  When the snapshot and the publish stages
    succeed and [start_server] returns no handle, [main] logs that and
    exits with status 1 without calling [rollback]: the disk is as
    publish left it, whether or not a snapshot was captured. *)
Theorem main_start_failure_exits_unrestored w config w1 backup_path w2 v w3 w4 :
  prologue w = (Ok config, w1) ->
  backup_current_version config w1 = (Ok backup_path, w2) ->
  deploy_files config w2 = (Ok v, w3) ->
  start_server config w3 = (Ok None, w4) ->
  exists w',
    main w = (Raise (SystemExit 1), w') /\
    exit_status (fst (main w)) = 1 /\
    w_disk w' = w_disk w3 /\
    w_log w' = (w_log w4 ++ [(ERROR, "Server failed to start.")])%list.
Proof.
  intros Hpro Hbak Hdep Hsrv.
  assert (Hmain : main w =
                  (Raise (SystemExit 1),
                   set_log (w_log w4 ++ [(ERROR, "Server failed to start.")]) w4)).
  { revert Hpro. unfold main, prologue, bind, try_except.
    destruct (logger_info _ w) as [[[]|e0] wa]; [|discriminate].
    destruct (load_config wa) as [[c|e1] wb]; [|discriminate].
    destruct (check_dependencies wb) as [[[]|e2] wc]; [|discriminate].
    destruct (setup_environment c wc) as [[[]|e3] wd]; [|discriminate].
    intros [= -> ->].
    rewrite Hbak, Hdep. simpl. rewrite Hsrv. reflexivity. }
  eexists. split; [exact Hmain|]. rewrite Hmain. simpl.
  repeat split. apply (start_server_disk _ _ _ _ Hsrv).
Qed.

(** ** The publisher *)

Lemma for_in_app {A S R} (body : A -> S -> M disk (R + S)) (xs ys : list A) :
  forall s w,
    for_in (xs ++ ys) s body w =
    match for_in xs s body w with
    | (Ok (inr s'), w') => for_in ys s' body w'
    | other => other
    end.
Proof.
  induction xs as [|x xs IH]; intros s w; simpl.
  - reflexivity.
  - unfold bind. destruct (body x s w) as [[[r|s']|e] w']; simpl; auto.
Qed.

Lemma deploy_loop_count root excludes (items : list string) :
  forall count w r w',
    for_in items count (deploy_item root excludes) w = (Ok r, w') ->
    r = inr (count + copied excludes items).
Proof.
  unfold copied.
  induction items as [|item items IH]; intros count w r w'; simpl.
  - intros [= <- <-]. f_equal. lia.
  - unfold bind at 1. unfold deploy_item at 1.
    destruct (skipped excludes item); simpl.
    + intros E. rewrite (IH _ _ _ _ E). reflexivity.
    + unfold bind.
      destruct (os_path_isdir item w) as [[d|e] wa]; [|discriminate].
      destruct d.
      * destruct (os_path_exists _ wa) as [[ex|e] wb]; [|discriminate].
        destruct ((if ex then shutil_rmtree _ else ret tt) wb) as [[[]|e] wc];
          [|discriminate].
        destruct (shutil_copytree _ _ wc) as [[[]|e] wd]; [|discriminate].
        intros E. rewrite (IH _ _ _ _ E).
        f_equal. cbn [List.length]. lia.
      * destruct (shutil_copy2 _ _ wa) as [[[]|e] wd]; [|discriminate].
        intros E. rewrite (IH _ _ _ _ E).
        f_equal. cbn [List.length]. lia.
Qed.

(** C6, as the code has it.  [deploy_files] returns [None]; the number
    of entries copied is only written to the log.  When handling an
    entry raises, the entries after it are not touched and the
    exception leaves [deploy_files] as it was raised: the world is the
    one the failing operation left, and the count so far is dropped. *)
Theorem deploy_files_logs_count_and_aborts config w items pre post count wk :
  let root := root_dir (server config) in
  let excludes := excludes_of root in
  fs_listdir "." (w_disk w) = Ok items ->
  items = (pre ++ post)%list ->
  for_in pre 0 (deploy_item root excludes)
         (set_log (w_log w ++ [(INFO, "Deploying files...")]) w)
    = (Ok (inr count), wk) ->
  count = copied excludes pre /\
  (post = [] ->
   deploy_files config w =
     (Ok PyNone,
      set_log (w_log wk ++
               [(INFO, ("Deployed " ++ str_Z count ++ " items to " ++ root)%string)])
              wk)) /\
  (forall item rest e wk',
     post = item :: rest ->
     deploy_item root excludes item count wk = (Raise e, wk') ->
     deploy_files config w = (Raise e, wk')).
Proof.
  intros root excludes Hls -> Hpre.
  split; [|split].
  - apply deploy_loop_count in Hpre. now injection Hpre.
  - intros ->. rewrite app_nil_r in Hls.
    unfold deploy_files. fold root excludes.
    unfold bind at 1. unfold logger_info at 1, logger at 1.
    unfold bind at 1. unfold os_listdir at 1. simpl w_disk. rewrite Hls.
    unfold bind at 1. rewrite Hpre. reflexivity.
  - intros item rest e wk' -> Hitem.
    unfold deploy_files. fold root excludes.
    unfold bind at 1. unfold logger_info at 1, logger at 1.
    unfold bind at 1. unfold os_listdir at 1. simpl w_disk. rewrite Hls.
    unfold bind at 1. rewrite for_in_app, Hpre. simpl for_in.
    unfold bind at 1. rewrite Hitem. reflexivity.
Qed.

(** ** Invariants of the publisher's loop *)

Lemma for_in_invariant {A S R} (P : disk -> Prop)
    (body : A -> S -> M disk (R + S)) (xs : list A) :
  (forall x s w, In x xs -> P (w_disk w) -> P (w_disk (snd (body x s w)))) ->
  forall s w, P (w_disk w) -> P (w_disk (snd (for_in xs s body w))).
Proof.
  induction xs as [|x xs IH]; intros Hbody s w Hw; [exact Hw|].
  simpl for_in. unfold bind at 1.
  pose proof (Hbody x s w (or_introl eq_refl) Hw) as Hx.
  destruct (body x s w) as [[[r|s']|e] w1]; cbn [snd] in Hx; try exact Hx.
  apply IH; [|exact Hx]. intros y s0 w0 Hy. apply Hbody. now right.
Qed.

Lemma deploy_files_invariant (P : disk -> Prop) config w :
  let root := root_dir (server config) in
  (forall items item count w0,
      fs_listdir "." (w_disk w) = Ok items -> In item items ->
      P (w_disk w0) ->
      P (w_disk (snd (deploy_item root (excludes_of root) item count w0)))) ->
  P (w_disk w) -> P (w_disk (snd (deploy_files config w))).
Proof.
  intros root Hitem Hw. unfold deploy_files. fold root.
  unfold bind at 1. unfold logger_info at 1, logger at 1.
  unfold bind at 1. unfold os_listdir at 1.
  set (w0 := set_log _ w). change (w_disk w0) with (w_disk w).
  destruct (fs_listdir "." (w_disk w)) as [items|e] eqn:Hls; [|exact Hw].
  assert (Hloop : P (w_disk (snd (for_in items 0
                                    (deploy_item root (excludes_of root)) w0)))).
  { apply for_in_invariant; [|exact Hw].
    intros item count w1 Hin. now apply (Hitem items). }
  unfold bind at 1.
  destruct (for_in items 0 (deploy_item root (excludes_of root)) w0)
    as [[[[]|c]|e] w1]; cbn [snd] in Hloop; exact Hloop.
Qed.

(** ** The failure paths of the controller *)




End Generic.

(** ** Runs of the generic theorems *)

(** C10 at a configuration with no retries. *)
Lemma health_check_zero_retries_witness :
  exists w',
    health_check Scenario.config_no_retries Scenario.healthy = (Ok false, w') /\
    w_gets w' = 0%nat /\
    w_sleeps w' = 0%nat /\
    w_log w' =
      [(INFO, "Running health check on http://127.0.0.1:8080/...");
       (ERROR, "Health check FAILED.")].
Proof.
  exact (health_check_zero_retries Scenario.config_no_retries Scenario.healthy eq_refl).
Defined.

(** The run the specification describes: three retries and a server
    that answers 200 from the second GET on. *)
Example health_check_second_attempt :
  fst (health_check Scenario.config Scenario.healthy) = Ok true /\
  w_gets (snd (health_check Scenario.config Scenario.healthy)) = 2%nat.
Proof. split; reflexivity. Qed.

(** C8 with another process on the port. *)
Lemma start_server_port_in_use_witness :
  exists w',
    start_server Scenario.config Scenario.port_taken = (Ok None, w') /\
    w_bind_attempts w' = [] /\
    w_serving w' = [] /\
    w_log w' = [(ERROR, "Port 8080 is already in use.")].
Proof.
  exact (start_server_port_in_use Scenario.config Scenario.port_taken eq_refl).
Defined.

(** C2 on a device that fails at the copy. *)
Lemma rollback_copy_failure_is_logged_witness :
  exists w',
    rollback (Some Scenario.snapshot_path) Scenario.config
             Scenario.worn_out_after_publish = (Ok tt, w') /\
    w_disk w' = (remove ["www"] Scenario.published_tree, 0%nat) /\
    w_log w' =
      [(WARNING, "Initiating ROLLBACK...");
       (CRITICAL, "Rollback failed: [Errno 5] Input/output error")] /\
    forall l, (level_rank l <= level_rank CRITICAL)%nat.
Proof.
  refine (rollback_copy_failure_is_logged
            Scenario.config Scenario.worn_out_after_publish
            Scenario.snapshot_path
            (remove ["www"] Scenario.published_tree, 0%nat)
            (remove ["www"] Scenario.published_tree, 0%nat)
            (Exception "OSError" "[Errno 5] Input/output error")
            _ eq_refl eq_refl eq_refl eq_refl).
  discriminate.
Defined.

(** C2 fails as stated: the snapshot is there, the content root is
    removed, the copy raises, and [rollback] returns normally with the
    content root gone; no exception reaches the caller. *)
Lemma rollback_failure_not_propagated :
  let w := Scenario.worn_out_after_publish in
  let r := rollback (Some Scenario.snapshot_path) Scenario.config w in
  fs_exists Scenario.snapshot_path (w_disk w) = true /\
  fs_rmtree "www" (w_disk w)
    = (Ok tt, (remove ["www"] Scenario.published_tree, 0%nat)) /\
  fs_copytree Scenario.snapshot_path "www"
              (remove ["www"] Scenario.published_tree, 0%nat)
    = (io_error, (remove ["www"] Scenario.published_tree, 0%nat)) /\
  fst r = Ok tt /\
  (forall e, fst r <> Raise e) /\
  fs_exists "www" (w_disk (snd r)) = false.
Proof.
  cbv zeta. repeat split; try reflexivity.
  intros e. discriminate.
Qed.

(** A rollout that commits: two entries published, the second GET
    answered 200, the server held until the interrupt and then stopped,
    exit status 0. *)
Example main_commits :
  let r := main Scenario.healthy in
  fst r = Raise (SystemExit 0) /\
  exit_status (fst r) = 0 /\
  w_gets (snd r) = 2%nat /\
  w_bind_attempts (snd r) = [("0.0.0.0", 8080)] /\
  w_serving (snd r) = [] /\
  content_root Scenario.config (w_disk (snd r))
    = Some (Dir [("index.html", File "<h1>new</h1>");
                 ("assets", Dir [("site.css", File "body {}")])]).
Proof. cbv zeta. repeat split; reflexivity. Qed.

(** C1 with another process on the port. *)
Lemma main_start_failure_exits_unrestored_witness :
  exists w',
    main Scenario.port_taken = (Raise (SystemExit 1), w') /\
    exit_status (fst (main Scenario.port_taken)) = 1 /\
    w_disk w' = Scenario.published_tree /\
    w_log w' =
      [(INFO, "Starting deployment process...");
       (INFO, "Checking dependencies...");
       (INFO, "Setting up environment...");
       (INFO, "Backup created at: deploy_backups/backup_20240101_120000");
       (INFO, "Deploying files...");
       (INFO, "Deployed 2 items to www");
       (ERROR, "Port 8080 is already in use.");
       (ERROR, "Server failed to start.")].
Proof.
  pose (w1 := snd (prologue Scenario.port_taken)).
  pose (w2 := snd (backup_current_version Scenario.config w1)).
  pose (w3 := snd (deploy_files Scenario.config w2)).
  pose (w4 := snd (start_server Scenario.config w3)).
  exact (main_start_failure_exits_unrestored
           Scenario.port_taken Scenario.config w1
           (Some Scenario.snapshot_path) w2 PyNone w3 w4
           eq_refl eq_refl eq_refl eq_refl).
Defined.

(** C1 fails as stated: the port is taken, a snapshot was captured, and
    the process exits with status 1 while the content root still holds
    the new content. *)
Lemma main_start_failure_leaves_new_content :
  let r := main Scenario.port_taken in
  fst r = Raise (SystemExit 1) /\
  get ["deploy_backups"; "backup_20240101_120000"] (w_disk (snd r))
    = get ["www"] Scenario.tree /\
  get ["www"] Scenario.tree = Some (Dir [("index.html", File "<h1>old</h1>")]) /\
  get ["www"] (w_disk (snd r))
    = Some (Dir [("index.html", File "<h1>new</h1>");
                 ("assets", Dir [("site.css", File "body {}")])]) /\
  get ["www"] (w_disk (snd r)) <> get ["www"] Scenario.tree.
Proof.
  cbv zeta. repeat split; try reflexivity.
  discriminate.
Qed.

(** C6 on a run that completes and on one the device cuts short. *)
Lemma deploy_files_logs_count_and_aborts_witness :
  (exists w',
     deploy_files Scenario.config Scenario.healthy = (Ok PyNone, w') /\
     w_log w' = [(INFO, "Deploying files..."); (INFO, "Deployed 2 items to www")]) /\
  (exists w',
     deploy_files Scenario.config Scenario.worn_out_before_publish
       = (io_error, w') /\
     w_log w' = [(INFO, "Deploying files...")] /\
     fs_exists "www/index.html" (w_disk w') = true /\
     fs_exists "www/assets" (w_disk w') = false).
Proof.
  split.
  - pose (w0 := set_log [(INFO, "Deploying files...")] Scenario.healthy).
    pose (wk := snd (for_in ["index.html"; "deploy.py"; ".git"; "assets"; "www"] 0
                       (deploy_item "www" (excludes_of "www")) w0)).
    destruct (deploy_files_logs_count_and_aborts (FS := tree_fs)
                Scenario.config Scenario.healthy
                ["index.html"; "deploy.py"; ".git"; "assets"; "www"]
                ["index.html"; "deploy.py"; ".git"; "assets"; "www"] [] 2 wk
                eq_refl eq_refl eq_refl) as (_ & Hdone & _).
    eexists. split; [exact (Hdone eq_refl)|]. reflexivity.
  - pose (w0 := set_log [(INFO, "Deploying files...")]
                        Scenario.worn_out_before_publish).
    pose (wk := snd (for_in ["index.html"; "deploy.py"; ".git"] 0
                       (deploy_item "www" (excludes_of "www")) w0)).
    pose (wk' := snd (deploy_item "www" (excludes_of "www") "assets" 1 wk)).
    destruct (deploy_files_logs_count_and_aborts (FS := failing_fs)
                Scenario.config Scenario.worn_out_before_publish
                ["index.html"; "deploy.py"; ".git"; "assets"; "www"]
                ["index.html"; "deploy.py"; ".git"] ["assets"; "www"] 1 wk
                eq_refl eq_refl eq_refl) as (_ & _ & Habort).
    exists wk'. split.
    + exact (Habort "assets" ["www"] _ wk' eq_refl eq_refl).
    + repeat split.
Defined.

(** C6 fails as stated: a run that copies two entries returns [None],
    not 2; and when the device fails on the second entry the exception
    that comes out is the device's [OSError], which is no [PublishFailed]
    and holds no count. *)
Lemma deploy_files_returns_no_count :
  fst (deploy_files Scenario.config Scenario.healthy) = Ok PyNone /\
  fst (deploy_files Scenario.config Scenario.healthy) <> Ok (PyInt 2) /\
  copied (excludes_of "www") ["index.html"; "deploy.py"; ".git"; "assets"; "www"] = 2 /\
  fst (deploy_files Scenario.config Scenario.worn_out_before_publish)
    = Raise (Exception "OSError" "[Errno 5] Input/output error") /\
  (forall e,
      fst (deploy_files Scenario.config Scenario.worn_out_before_publish) = Raise e ->
      exn_class e = "OSError" /\ exn_class e <> "PublishFailed").
Proof.
  repeat split; try reflexivity; try discriminate.
  - injection H as <-. reflexivity.
  - injection H as <-. discriminate.
Qed.

(** ** The request handler *)

Lemma send_headers_buffer (hs : list (string * string)) :
  forall self,
    let self' := fold_left (fun h kv => send_header (fst kv) (snd kv) h) hs self in
    h_headers_buffer self' = (h_headers_buffer self ++ hs)%list /\
    h_wfile self' = h_wfile self /\
    h_config self' = h_config self.
Proof.
  induction hs as [|[k v] hs IH]; intros self; simpl.
  - now rewrite app_nil_r.
  - destruct (IH (send_header k v self)) as (Hb & Hw & Hc).
    rewrite Hb, Hw, Hc. simpl. now rewrite <- app_assoc.
Qed.

Lemma first_value_app name (xs ys : list (string * string)) :
  first_value name (xs ++ ys) =
  match first_value name xs with
  | Some v => Some v
  | None => first_value name ys
  end.
Proof.
  induction xs as [|[k v] xs IH]; simpl; [reflexivity|].
  destruct (same_name k name); auto.
Qed.

(** X21.  The header block of a response is the lines the handler had
    buffered and those of the static-file logic, followed by the
    configured lines in the order of the configuration: [end_headers]
    adds lines and removes none.  So, in a block a client reads as it
    was sent, what the client finds for a name is what the earlier lines
    give, and then what the configured lines give. *)
Theorem respond_appends_configured_headers defaults self :
  let configured := security_headers (h_config self) in
  let block := last_response (respond defaults self) in
  block = (h_headers_buffer self ++ defaults ++ configured)%list /\
  (forall k v, In (k, v) configured -> In (k, v) block) /\
  (forall k v, In (k, v) defaults -> In (k, v) block) /\
  (readable block = true ->
   (forall name,
       all_values name block =
       (all_values name (h_headers_buffer self ++ defaults)
        ++ all_values name configured)%list) /\
   (forall name,
       first_value name block =
       match first_value name (h_headers_buffer self ++ defaults)%list with
       | Some v => Some v
       | None => first_value name configured
       end)).
Proof.
  intros configured block.
  assert (Hblock : block = (h_headers_buffer self ++ defaults ++ configured)%list).
  { unfold block, respond, end_headers, last_response, super_end_headers. simpl.
    rewrite last_last.
    destruct (send_headers_buffer defaults self) as (Hb & _ & Hc).
    destruct (send_headers_buffer
                (security_headers
                   (h_config (fold_left (fun h kv => send_header (fst kv) (snd kv) h)
                                        defaults self)))
                (fold_left (fun h kv => send_header (fst kv) (snd kv) h)
                           defaults self)) as (Hb' & _ & _).
    rewrite Hb', Hb, Hc. now rewrite <- app_assoc. }
  split; [exact Hblock|]. rewrite Hblock.
  split; [|split; [|intros _; split]].
  - intros k v Hin. apply in_or_app. right. apply in_or_app. now right.
  - intros k v Hin. apply in_or_app. right. apply in_or_app. now left.
  - intros name. unfold all_values.
    rewrite app_assoc, filter_app, map_app. reflexivity.
  - intros name. rewrite app_assoc. apply first_value_app.
Qed.

(** X21 for a response of the scenario's handler. *)
Lemma respond_appends_configured_headers_witness :
  let configured := [("X-Frame-Options", "DENY");
                     ("X-Content-Type-Options", "nosniff")] in
  let block := last_response (respond Scenario.default_headers Scenario.plain_handler) in
  block = (Scenario.default_headers ++ configured)%list /\
  (forall name,
      all_values name block =
      (all_values name Scenario.default_headers ++ all_values name configured)%list) /\
  (forall name,
      first_value name block =
      match first_value name Scenario.default_headers with
      | Some v => Some v
      | None => first_value name configured
      end).
Proof.
  destruct (respond_appends_configured_headers Scenario.default_headers
              Scenario.plain_handler) as (Hblock & _ & _ & Hread).
  split; [exact Hblock|].
  apply Hread. vm_compute. reflexivity.
Defined.

(** C9, where the code falls short of it.  With [Server] among the
    configured headers, a response carries the [Server] line of the
    static-file logic and, after it, the configured one: the configured
    value does not take the place of the default.  A client that takes
    the first line reads the default, and one that joins the lines (as
    the deployment test does with [response.headers[key]]) reads both
    values, not the configured one.  The configured header that meets no
    default is read back as configured. *)
Theorem configured_header_does_not_override :
  let block := last_response (respond Scenario.default_headers Scenario.handler) in
  security_headers (h_config Scenario.handler)
    = [("Server", "hidden"); ("X-Frame-Options", "DENY")] /\
  block = [("Server", "SimpleHTTP/0.6 Python/3.11.4");
           ("Date", "Mon, 01 Jan 2024 12:00:00 GMT");
           ("Content-type", "text/html");
           ("Content-Length", "12");
           ("Server", "hidden");
           ("X-Frame-Options", "DENY")] /\
  readable block = true /\
  first_value "Server" block = Some "SimpleHTTP/0.6 Python/3.11.4" /\
  first_value "Server" block <> Some "hidden" /\
  joined_value "Server" block = Some "SimpleHTTP/0.6 Python/3.11.4, hidden" /\
  joined_value "Server" block <> Some "hidden" /\
  joined_value "X-Frame-Options" block = Some "DENY".
Proof.
  cbv zeta. repeat split; try (vm_compute; reflexivity); discriminate.
Qed.

(** ** The tree *)

Section Tree.

Lemma lookup_set_same n x es : lookup_entry n (set_entry n x es) = Some x.
Proof.
  induction es as [|[m y] es IH]; simpl.
  - now rewrite String.eqb_refl.
  - destruct (n =? m)%string eqn:E; simpl.
    + now rewrite String.eqb_refl.
    + now rewrite E.
Qed.

Lemma lookup_set_other n m x es :
  n <> m -> lookup_entry m (set_entry n x es) = lookup_entry m es.
Proof.
  intros Hnm. induction es as [|[k y] es IH]; simpl.
  - destruct (String.eqb_spec m n); [congruence|reflexivity].
  - destruct (String.eqb_spec n k) as [->|Hnk]; simpl.
    + destruct (String.eqb_spec m k); [congruence|reflexivity].
    + now rewrite IH.
Qed.


Lemma lookup_del_other n m es :
  n <> m -> lookup_entry m (del_entry n es) = lookup_entry m es.
Proof.
  intros Hnm. induction es as [|[k y] es IH]; simpl; [reflexivity|].
  destruct (String.eqb_spec n k) as [->|Hnk]; simpl.
  - destruct (String.eqb_spec m k); [congruence|exact IH].
  - now rewrite IH.
Qed.

Lemma not_prefix_not_nil p q : is_prefix p q = false -> p <> [].
Proof. intros Hp ->. discriminate. Qed.

Lemma get_in_empty p : p <> [] -> get p (Dir []) = None.
Proof. destruct p; [congruence|reflexivity]. Qed.

Lemma put_can_write p new : forall t,
  no_file_on_way p t = true -> exists t', put p new t = Some t'.
Proof.
  induction p as [|n p IH]; intros t; simpl.
  - intros _. now exists new.
  - destruct t as [data|es]; [discriminate|].
    destruct (lookup_entry n es) as [c|].
    + intros Hc. destruct (IH c Hc) as (c' & ->). eauto.
    + intros _. destruct (IH (Dir [])) as (c' & ->); [|eauto].
      destruct p; reflexivity.
Qed.

Lemma get_put_same p new : forall t t',
  put p new t = Some t' -> get p t' = Some new.
Proof.
  induction p as [|n p IH]; intros t t'; simpl.
  - now intros [= ->].
  - destruct t as [data|es]; [discriminate|].
    destruct (put p new _) as [c'|] eqn:E; [|discriminate].
    intros [= <-]. simpl. rewrite lookup_set_same. eapply IH, E.
Qed.

Lemma get_put_other p new : forall q t t',
  put p new t = Some t' ->
  is_prefix p q = false -> is_prefix q p = false ->
  get q t' = get q t.
Proof.
  induction p as [|n p IH]; intros q t t'; simpl.
  - discriminate.
  - destruct t as [data|es]; [discriminate|].
    destruct (put p new _) as [c'|] eqn:E; [|discriminate].
    intros [= <-]. destruct q as [|m q]; [discriminate|]. simpl.
    destruct (String.eqb_spec n m) as [<-|Hnm]; simpl.
    + rewrite String.eqb_refl. simpl. intros Hpq Hqp.
      rewrite lookup_set_same, (IH _ _ _ E Hpq Hqp).
      destruct (lookup_entry n es); [reflexivity|].
      apply get_in_empty. eapply not_prefix_not_nil, Hqp.
    + intros _ _. now rewrite lookup_set_other.
Qed.


Lemma get_remove_other p : forall q t,
  is_prefix p q = false -> is_prefix q p = false ->
  get q (remove p t) = get q t.
Proof.
  induction p as [|n p IH]; intros q t; [discriminate|].
  destruct q as [|m q]; [discriminate|].
  destruct t as [data|es]; [reflexivity|].
  cbn [is_prefix].
  destruct (String.eqb_spec n m) as [<-|Hnm].
  - rewrite String.eqb_refl. cbn [andb]. intros Hpq Hqp.
    destruct p as [|k p]; [discriminate|].
    cbn [remove]. destruct (lookup_entry n es) as [c|] eqn:E; [|reflexivity].
    cbn [get]. rewrite lookup_set_same, E. now apply IH.
  - intros _ _. destruct p as [|k p]; cbn [remove].
    + cbn [get]. now rewrite lookup_del_other.
    + destruct (lookup_entry n es) as [c|] eqn:E; [|reflexivity].
      cbn [get]. now rewrite lookup_set_other.
Qed.



End Tree.

(** ** The snapshot store, on the tree *)


Lemma nonempty_entries (es : list (string * node)) :
  es <> [] -> is_empty (map fst es) = false.
Proof. destruct es; [congruence|reflexivity]. Qed.

(** The snapshot of a non-empty content root is written at the free
    snapshot path. *)
Lemma backup_takes_snapshot config (w : world node) r bk es :
  resolve (root_dir (server config)) = Some r ->
  get r (w_disk w) = Some (Dir es) ->
  es <> [] ->
  resolve (snapshot_name (w_clock w)) = Some bk ->
  get bk (w_disk w) = None ->
  no_file_on_way bk (w_disk w) = true ->
  is_prefix r bk = false ->
  exists t',
    put bk (Dir es) (w_disk w) = Some t' /\
    backup_current_version config w =
      (Ok (Some (snapshot_name (w_clock w))),
       set_log (w_log w ++ [(INFO, "Backup created at: " ++ snapshot_name (w_clock w))])
               (set_disk t' w)).
Proof.
  intros Hr Hroot Hes Hbk Hfree Hway Hpre.
  destruct (put_can_write bk (Dir es) _ Hway) as (t' & Hput).
  exists t'. split; [exact Hput|].
  assert (Hex : tree_exists (root_dir (server config)) (w_disk w) = true).
  { unfold tree_exists. now rewrite Hr, Hroot. }
  assert (Hls : tree_listdir (root_dir (server config)) (w_disk w) = Ok (map fst es)).
  { unfold tree_listdir. now rewrite Hr, Hroot. }
  assert (Hcp : tree_copytree (root_dir (server config)) (snapshot_name (w_clock w))
                              (w_disk w) = (Ok tt, t')).
  { unfold tree_copytree, runs_away. now rewrite Hr, Hroot, Hbk, Hfree, Hpre, Hput. }
  unfold backup_current_version, bind, os_path_exists, os_listdir,
    datetime_now_strftime, shutil_copytree, on_disk.
  cbn [fs_exists fs_listdir fs_copytree tree_fs].
  rewrite Hex, Hls. unfold ret at 1. rewrite (nonempty_entries _ Hes).
  cbn [negb]. fold (snapshot_name (w_clock w)). rewrite Hcp.
  reflexivity.
Qed.


(** C3, where the code falls short of it.  With the backups directory
    as content root, the snapshot of a non-empty content root is taken
    inside the content root.  Restoring from it first removes the
    content root, and the snapshot with it: the copy then finds nothing,
    the failure is only logged, and no content root is left. *)
Theorem capture_then_restore_loses_content :
  let config := Scenario.config_root_in_backups in
  let w := Scenario.backups_as_root in
  let w1 := Scenario.backups_as_root_captured in
  let w2 := Scenario.backups_as_root_restored in
  content_root config (w_disk w) = Some (Dir [("index.html", File "<h1>old</h1>")]) /\
  backup_current_version config w = (Ok (Some Scenario.snapshot_path), w1) /\
  get ["deploy_backups"; "backup_20240101_120000"] (w_disk w1)
    = Some (Dir [("index.html", File "<h1>old</h1>")]) /\
  rollback (Some Scenario.snapshot_path) config w1 = (Ok tt, w2) /\
  content_root config (w_disk w2) = None /\
  content_root config (w_disk w2) <> content_root config (w_disk w) /\
  w_disk w2 = Dir [("index.html", File "<h1>new</h1>")] /\
  w_log w2 =
    [(INFO, "Backup created at: deploy_backups/backup_20240101_120000");
     (WARNING, "Initiating ROLLBACK...");
     (CRITICAL, "Rollback failed: [Errno 2] No such file or directory: 'deploy_backups/backup_20240101_120000'")].
Proof.
  cbv zeta. repeat split; try (vm_compute; reflexivity). discriminate.
Qed.

(** [backup_current_version] by cases on what is at the content root. *)
Lemma backup_unfold config (w : world node) :
  let root := root_dir (server config) in
  let snapshot := snapshot_name (w_clock w) in
  backup_current_version config w =
  match content_root config (w_disk w) with
  | None => (Ok None, w)
  | Some (File _) => (NotADirectoryError root, w)
  | Some (Dir []) => (Ok None, w)
  | Some (Dir _) =>
      match tree_copytree root snapshot (w_disk w) with
      | (Ok _, t') =>
          (Ok (Some snapshot),
           set_log (w_log w ++ [(INFO, "Backup created at: " ++ snapshot)])
                   (set_disk t' w))
      | (Raise e, t') => (Raise e, set_disk t' w)
      end
  end.
Proof.
  intros root snapshot.
  unfold content_root, backup_current_version, bind, os_path_exists, os_listdir,
    datetime_now_strftime, shutil_copytree, on_disk.
  cbn [fs_exists fs_listdir fs_copytree tree_fs].
  fold root. fold (snapshot_name (w_clock w)). fold snapshot.
  unfold tree_exists, tree_listdir.
  destruct (resolve root) as [r|]; [|reflexivity].
  destruct (get r (w_disk w)) as [[data|es]|] eqn:Hroot; cbv beta iota;
    rewrite ?Hroot; try reflexivity.
  destruct es as [|e es]; [reflexivity|].
  cbn [map is_empty negb ret]. cbv beta iota.
  change (os_path_join BACKUP_DIR ("backup_" ++ w_clock w)) with snapshot.
  destruct (tree_copytree root snapshot (w_disk w)) as [[[]|e'] t']; reflexivity.
Qed.

(** C7. [backup_current_version] returns [None], changing nothing, when
    the content root is absent or an empty directory; whenever it returns,
    it returns a path exactly for a non-empty directory, and the path is
    the timestamped one under the backups directory, was free before and
    holds a copy of the content root after; for a non-empty directory and
    a free path it does return; and [rollback] of [None] only logs a
    warning. *)
Theorem backup_exactly_when_nonempty config (w : world node) :
  let snapshot := snapshot_name (w_clock w) in
  (content_root config (w_disk w) = None \/
   content_root config (w_disk w) = Some (Dir []) ->
   backup_current_version config w = (Ok None, w)) /\
  (forall res w',
      backup_current_version config w = (Ok res, w') ->
      ((exists p, res = Some p) <->
       (exists es, content_root config (w_disk w) = Some (Dir es) /\ es <> [])) /\
      (forall p, res = Some p ->
                 p = snapshot /\
                 exists bk, resolve snapshot = Some bk /\
                            get bk (w_disk w) = None /\
                            get bk (w_disk w') = content_root config (w_disk w))) /\
  (forall r bk es,
      resolve (root_dir (server config)) = Some r ->
      get r (w_disk w) = Some (Dir es) ->
      es <> [] ->
      resolve snapshot = Some bk ->
      get bk (w_disk w) = None ->
      no_file_on_way bk (w_disk w) = true ->
      is_prefix r bk = false ->
      exists w', backup_current_version config w = (Ok (Some snapshot), w')) /\
  (exists w',
      rollback None config w = (Ok tt, w') /\
      w_disk w' = w_disk w /\
      w_log w' = (w_log w ++ [(WARNING, "No backup path provided for rollback.")])%list).
Proof.
  intros snapshot. split; [|split; [|split]].
  - rewrite backup_unfold. intros [-> | ->]; reflexivity.
  - intros res w'. rewrite backup_unfold. fold snapshot.
    destruct (content_root config (w_disk w)) as [[data|es]|] eqn:Hroot.
    + discriminate.
    + destruct es as [|e es].
      * intros [= <- <-]. split.
        -- split; [intros (p & [=])|intros (es & [= <-] & Hne); congruence].
        -- intros p [=].
      * unfold content_root in Hroot. unfold tree_copytree.
        destruct (resolve (root_dir (server config))) as [r|]; [|discriminate].
        rewrite Hroot.
        destruct (resolve snapshot) as [bk|] eqn:Hbk; [|discriminate].
        destruct (get bk (w_disk w)) eqn:Hfree; [discriminate|].
        destruct (runs_away r bk (e :: es)); [discriminate|].
        destruct (put bk (Dir (e :: es)) (w_disk w)) as [t'|] eqn:Hput;
          [|discriminate].
        intros [= <- <-]. split.
        -- split; [intros _; exists (e :: es); split; [reflexivity|discriminate]
                  |intros _; eauto].
        -- intros p [= <-]. split; [reflexivity|].
           exists bk. split; [reflexivity|]. split; [exact Hfree|].
           cbn. eapply get_put_same, Hput.
    + intros [= <- <-]. split.
      * split; [intros (p & [=])|intros (es & [=] & _)].
      * intros p [=].
  - intros r bk es Hr Hroot Hes Hbk Hfree Hway Hrb.
    destruct (backup_takes_snapshot config w r bk es Hr Hroot Hes Hbk Hfree Hway Hrb)
      as (t1 & _ & Hbackup).
    eauto.
  - eexists. split; [reflexivity|]. split; reflexivity.
Qed.

(** ** The publisher, on the tree *)

(** *** Paths built by [os.path.join] *)

Lemma split_slash_not_nil s : split_slash s <> [].
Proof.
  destruct s as [|c s]; simpl; [discriminate|].
  destruct (Ascii.eqb c "/"); [discriminate|].
  destruct (split_slash s); discriminate.
Qed.

Lemma split_slash_plain s : has_slash s = false -> split_slash s = [s].
Proof.
  induction s as [|c s IH]; simpl; [reflexivity|].
  destruct (Ascii.eqb c "/"); [discriminate|]. simpl.
  intros Hs. now rewrite (IH Hs).
Qed.

Lemma split_slash_app a b :
  split_slash (a ++ String "/" b) = (split_slash a ++ split_slash b)%list.
Proof.
  induction a as [|c a IH]; simpl; [reflexivity|].
  destruct (Ascii.eqb c "/"); simpl; [now rewrite IH|].
  rewrite IH. destruct (split_slash a) eqn:E; [|reflexivity].
  now apply split_slash_not_nil in E.
Qed.

Lemma components_app a b :
  components (a ++ String "/" b) = (components a ++ components b)%list.
Proof. unfold components. now rewrite split_slash_app, filter_app. Qed.

Lemma components_name item : valid_name item = true -> components item = [item].
Proof.
  unfold valid_name, components. intros H.
  apply andb_prop in H as [H Hs]. apply andb_prop in H as [Hc _].
  apply negb_true_iff in Hs. rewrite (split_slash_plain _ Hs). simpl.
  now rewrite Hc.
Qed.

Lemma endswith_slash_split a :
  endswith_slash a = true -> exists a0, a = a0 ++ "/".
Proof.
  induction a as [|c a IH]; [discriminate|].
  destruct a as [|c' a'].
  - simpl. intros Hc. apply Ascii.eqb_eq in Hc as ->. now exists "".
  - intros Ha. destruct (IH Ha) as (a0 & E). exists (String c a0).
    simpl. now rewrite <- E.
Qed.

Lemma append_assoc_slash a0 item : (a0 ++ "/") ++ item = a0 ++ String "/" item.
Proof. induction a0 as [|c a0 IH]; simpl; [reflexivity|now rewrite IH]. Qed.

Lemma components_trailing a0 : components (a0 ++ "/") = components a0.
Proof.
  change (a0 ++ "/") with (a0 ++ String "/" ""). rewrite components_app.
  apply app_nil_r.
Qed.

Lemma startswith_append a b : a <> "" -> startswith (a ++ b) "/" = startswith a "/".
Proof.
  destruct a as [|c a]; [congruence|]. intros _. reflexivity.
Qed.

Lemma append_not_empty a b : a <> "" -> (a ++ b =? "")%string = false.
Proof. destruct a; [congruence|reflexivity]. Qed.

Lemma str_in_app_name s r item :
  (s =? item)%string = false -> str_in s (r ++ [item]) = str_in s r.
Proof.
  intros Hs. unfold str_in. rewrite existsb_app. simpl. rewrite Hs.
  now rewrite !orb_false_r.
Qed.

Lemma valid_name_facts item :
  valid_name item = true ->
  item <> "" /\ startswith item "/" = false /\ (".." =? item)%string = false.
Proof.
  unfold valid_name, is_component. intros H.
  apply andb_prop in H as [H Hs]. apply andb_prop in H as [Hc Hdd].
  apply andb_prop in Hc as [He _].
  apply negb_true_iff in Hs, Hdd, He.
  split; [|split].
  - intros ->. discriminate.
  - destruct item as [|c s]; [reflexivity|]. simpl in *.
    apply orb_false_iff in Hs as [-> _]. reflexivity.
  - now rewrite String.eqb_sym.
Qed.

Lemma resolve_join root item :
  valid_name item = true ->
  resolve (os_path_join root item) =
  match publish_base root with
  | Some base => Some (base ++ [item])%list
  | None => None
  end.
Proof.
  intros Hv. destruct (valid_name_facts _ Hv) as (Hne & Hsl & Hdd).
  unfold os_path_join, publish_base. rewrite Hsl.
  destruct (String.eqb_spec root "") as [->|Hroot].
  - simpl. unfold resolve. rewrite Hsl.
    destruct (String.eqb_spec item ""); [contradiction|].
    rewrite (components_name _ Hv).
    change [item] with ([] ++ [item])%list at 1.
    now rewrite (str_in_app_name _ _ _ Hdd).
  - simpl. assert (Hjoin : forall joined,
               joined = root ++ item \/ joined = root ++ "/" ++ item ->
               endswith_slash root = true \/ joined = root ++ "/" ++ item ->
               resolve joined = match resolve root with
                                | Some base => Some (base ++ [item])%list
                                | None => None
                                end).
    { intros joined Hshape Hslash.
      assert (Hcomp : components joined = (components root ++ [item])%list).
      { destruct Hshape as [-> | ->].
        - destruct Hslash as [Hend|E].
          + destruct (endswith_slash_split _ Hend) as (a0 & ->).
            rewrite append_assoc_slash, components_app, components_trailing.
            now rewrite (components_name _ Hv).
          + change (root ++ "/" ++ item) with (root ++ String "/" item) in E.
            rewrite E, components_app. now rewrite (components_name _ Hv).
        - change (root ++ "/" ++ item) with (root ++ String "/" item).
          rewrite components_app. now rewrite (components_name _ Hv). }
      unfold resolve. rewrite Hcomp.
      assert (Hnz : (joined =? "")%string = false).
      { destruct Hshape as [-> | ->]; now apply append_not_empty. }
      assert (Hst : startswith joined "/" = startswith root "/").
      { destruct Hshape as [-> | ->]; now apply startswith_append. }
      rewrite Hnz, Hst. destruct (String.eqb_spec root ""); [contradiction|].
      destruct (startswith root "/"); [reflexivity|].
      rewrite (str_in_app_name _ _ _ Hdd).
      destruct (str_in ".." (components root)); reflexivity. }
    destruct (endswith_slash root) eqn:Hend.
    + apply Hjoin; auto.
    + apply Hjoin; auto.
Qed.

Lemma is_prefix_app_l d x : forall q,
  is_prefix d q = false -> is_prefix (d ++ x)%list q = false.
Proof.
  induction d as [|n d IH]; intros q; simpl; [discriminate|].
  destruct q as [|m q]; [reflexivity|].
  destruct (n =? m)%string; simpl; [apply IH|reflexivity].
Qed.

Lemma is_prefix_snoc q : forall d b,
  is_prefix d q = false -> is_prefix q d = false ->
  is_prefix q (d ++ [b])%list = false.
Proof.
  induction q as [|m q IH]; intros d b; simpl; [discriminate|].
  destruct d as [|n d]; [discriminate|]. simpl.
  rewrite (String.eqb_sym m n).
  destruct (n =? m)%string; simpl; [apply IH|reflexivity].
Qed.

Lemma is_prefix_app_same b : forall x y,
  is_prefix (b ++ x)%list (b ++ y)%list = is_prefix x y.
Proof.
  induction b as [|n b IH]; intros x y; simpl; [reflexivity|].
  now rewrite String.eqb_refl, IH.
Qed.

Lemma rmtree_frame dst t q :
  outside dst q -> get q (snd (tree_rmtree dst t)) = get q t.
Proof.
  intros Hout. unfold tree_rmtree.
  destruct (resolve dst) as [d|] eqn:Hd; [|reflexivity].
  destruct (Hout d Hd) as (Hdq & Hqd).
  destruct (get d t) as [[data|es]|]; try reflexivity.
  destruct d as [|n d]; [discriminate|].
  cbn [snd]. now apply get_remove_other.
Qed.

Lemma copytree_frame src dst t q :
  outside dst q -> get q (snd (tree_copytree src dst t)) = get q t.
Proof.
  intros Hout. unfold tree_copytree.
  destruct (resolve src) as [rs|]; [|reflexivity].
  destruct (get rs t) as [[data|es]|]; try reflexivity.
  destruct (resolve dst) as [d|] eqn:Hd; [|reflexivity].
  destruct (Hout d Hd) as (Hdq & Hqd).
  destruct (get d t); [reflexivity|].
  destruct (runs_away rs d es); [reflexivity|].
  destruct (put d (Dir es) t) as [t'|] eqn:Hput; [|reflexivity].
  cbn [snd]. eapply get_put_other; eauto.
Qed.

Lemma copy2_frame src dst t q :
  outside dst q -> get q (snd (tree_copy2 src dst t)) = get q t.
Proof.
  intros Hout. unfold tree_copy2.
  destruct (resolve src) as [rs|]; [|reflexivity].
  destruct (get rs t) as [[data|es]|]; try reflexivity.
  destruct (resolve dst) as [d|] eqn:Hd; [|reflexivity].
  destruct (Hout d Hd) as (Hdq & Hqd).
  set (d' := match get d t with
             | Some (Dir _) => (d ++ [basename src])%list
             | _ => d
             end).
  assert (Hd' : is_prefix d' q = false /\ is_prefix q d' = false).
  { unfold d'. destruct (get d t) as [[?|?]|]; auto.
    split; [now apply is_prefix_app_l|now apply is_prefix_snoc]. }
  destruct Hd' as (Hd'q & Hqd').
  destruct (path_eqb rs d'); [reflexivity|].
  destruct (get d' t) as [[?|?]|];
    destruct (get (removelast d') t) as [[?|?]|]; try reflexivity;
    (destruct (put d' (File data) t) as [t'|] eqn:Hput; [|reflexivity];
     cbn [snd]; eapply get_put_other; eauto).
Qed.

Lemma deploy_item_frame root excludes item count (w : world node) q :
  outside (os_path_join root item) q ->
  get q (w_disk (snd (deploy_item root excludes item count w))) = get q (w_disk w).
Proof.
  intros Hout. unfold deploy_item.
  destruct (skipped excludes item); [reflexivity|].
  unfold bind, os_path_isdir, os_path_exists, shutil_rmtree, shutil_copytree,
    shutil_copy2, on_disk.
  cbn [fs_isdir fs_exists fs_rmtree fs_copytree fs_copy2 tree_fs].
  set (dst := os_path_join root item) in *.
  destruct (tree_isdir item (w_disk w)).
  - destruct (tree_exists dst (w_disk w)).
    + pose proof (rmtree_frame dst (w_disk w) q Hout) as Hrm.
      destruct (tree_rmtree dst (w_disk w)) as [[[]|e] t1]; cbn [snd] in Hrm.
      * cbn [set_disk w_disk].
        pose proof (copytree_frame item dst t1 q Hout) as Hcp.
        destruct (tree_copytree item dst t1) as [[[]|e] t2]; cbn [snd] in Hcp;
          cbn; congruence.
      * cbn. exact Hrm.
    + unfold ret.
      pose proof (copytree_frame item dst (w_disk w) q Hout) as Hcp.
      destruct (tree_copytree item dst (w_disk w)) as [[[]|e] t2]; cbn [snd] in Hcp;
        cbn; exact Hcp.
  - pose proof (copy2_frame item dst (w_disk w) q Hout) as Hcp.
    destruct (tree_copy2 item dst (w_disk w)) as [[[]|e] t2]; cbn [snd] in Hcp;
      cbn; exact Hcp.
Qed.







Lemma listed_names (t : node) items item :
  tree_listdir "." t = Ok items -> In item items -> In item (top_names t).
Proof.
  unfold tree_listdir. change (resolve ".") with (Some (@nil string)).
  cbn [get]. destruct t as [data|es]; [discriminate|].
  now intros [= <-].
Qed.


(** X1. The exclusion half of C5, for every tree and every [root_dir] inside
    it: whatever the outcome of [deploy_files], nothing at or below an
    entry of the content root whose name is in the exclude list or starts
    with a dot is changed. *)
Theorem deploy_files_never_copies_skipped config (w : world node) base n rest :
  let root := root_dir (server config) in
  forallb valid_name (top_names (w_disk w)) = true ->
  publish_base root = Some base ->
  skipped (excludes_of root) n = true ->
  get (base ++ n :: rest)%list (w_disk (snd (deploy_files config w)))
  = get (base ++ n :: rest)%list (w_disk w).
Proof.
  intros root Hnames Hbase Hskip.
  apply (deploy_files_invariant
           (fun t => get (base ++ n :: rest)%list t
                     = get (base ++ n :: rest)%list (w_disk w)));
    [|reflexivity].
  intros items item count w0 Hls Hin Hw0. fold root.
  unfold deploy_item. destruct (skipped (excludes_of root) item) eqn:Hs;
    [exact Hw0|].
  pose proof (deploy_item_frame root (excludes_of root) item count w0
                (base ++ n :: rest)%list) as Hframe.
  unfold deploy_item in Hframe. rewrite Hs in Hframe.
  rewrite Hframe; [exact Hw0|].
  intros d Hd.
  assert (Hv : valid_name item = true).
  { rewrite forallb_forall in Hnames. apply Hnames. eapply listed_names; eauto. }
  rewrite (resolve_join _ _ Hv) in Hd. fold root in Hd.
  rewrite Hbase in Hd. injection Hd as <-.
  assert (Hne : (item =? n)%string = false).
  { destruct (String.eqb_spec item n) as [->|]; [congruence|reflexivity]. }
  rewrite !is_prefix_app_same. cbn [is_prefix].
  rewrite Hne, (String.eqb_sym n item), Hne. auto.
Qed.

(** X1 on the scenario's tree: [deploy.py] and [.git] stay out. *)
Lemma deploy_files_never_copies_skipped_witness :
  get ["www"; "deploy.py"]
      (w_disk (snd (deploy_files Scenario.config Scenario.healthy)))
  = get ["www"; "deploy.py"] Scenario.tree /\
  get ["www"; ".git"; "HEAD"]
      (w_disk (snd (deploy_files Scenario.config Scenario.healthy)))
  = get ["www"; ".git"; "HEAD"] Scenario.tree.
Proof.
  split.
  - exact (deploy_files_never_copies_skipped
             Scenario.config Scenario.healthy ["www"] "deploy.py" []
             eq_refl eq_refl eq_refl).
  - exact (deploy_files_never_copies_skipped
             Scenario.config Scenario.healthy ["www"] ".git" ["HEAD"]
             eq_refl eq_refl eq_refl).
Defined.

Lemma resolve_name item : valid_name item = true -> resolve item = Some [item].
Proof.
  intros Hv. pose proof (resolve_join "" item Hv) as E.
  destruct (valid_name_facts _ Hv) as (_ & Hsl & _).
  unfold os_path_join in E. rewrite Hsl in E. exact E.
Qed.

(** One entry, copied: what is then at the destination is what was at
    the source. *)
Lemma deploy_item_copies root excludes item count (w w1 : world node) base c :
  valid_name item = true ->
  publish_base root = Some base ->
  is_prefix [item] (base ++ [item])%list = false ->
  skipped excludes item = false ->
  (forall data es, get [item] (w_disk w) = Some (File data) ->
                   get (base ++ [item])%list (w_disk w) <> Some (Dir es)) ->
  deploy_item root excludes item count w = (Ok c, w1) ->
  get (base ++ [item])%list (w_disk w1) = get [item] (w_disk w).
Proof.
  intros Hv Hbase Hout Hs Hclash. unfold deploy_item. rewrite Hs.
  pose proof (resolve_join root item Hv) as Hdst. rewrite Hbase in Hdst.
  pose proof (resolve_name item Hv) as Hsrc.
  unfold bind, os_path_isdir, os_path_exists, shutil_rmtree, shutil_copytree,
    shutil_copy2, on_disk.
  cbn [fs_isdir fs_exists fs_rmtree fs_copytree fs_copy2 tree_fs].
  set (dst := os_path_join root item) in *.
  set (d := (base ++ [item])%list) in *.
  assert (Hdi : is_prefix d [item] = false).
  { unfold d. destruct base as [|b base]; [cbn in Hout; now rewrite String.eqb_refl in Hout|].
    cbn. destruct (b =? item)%string; [|reflexivity]. cbn.
    destruct base; reflexivity. }
  unfold tree_isdir. rewrite Hsrc.
  destruct (get [item] (w_disk w)) as [[data|es]|] eqn:Hitem.
  - (* a regular file *)
    unfold tree_copy2. rewrite Hsrc, Hitem, Hdst. cbv zeta.
    destruct (get d (w_disk w)) as [[?|es']|] eqn:Hd.
    + destruct (path_eqb [item] d); [discriminate|]. rewrite Hd.
      destruct (get (removelast d) (w_disk w)) as [[?|?]|]; try discriminate.
      destruct (put d (File data) (w_disk w)) as [t'|] eqn:Hput; [|discriminate].
      intros [= _ <-]. cbn. eapply get_put_same, Hput.
    + exfalso. eapply Hclash; eauto.
    + destruct (path_eqb [item] d); [discriminate|]. rewrite Hd.
      destruct (get (removelast d) (w_disk w)) as [[?|?]|]; try discriminate.
      destruct (put d (File data) (w_disk w)) as [t'|] eqn:Hput; [|discriminate].
      intros [= _ <-]. cbn. eapply get_put_same, Hput.
  - (* a directory *)
    assert (Hcopy : forall t1 r t2,
               get [item] t1 = Some (Dir es) ->
               tree_copytree item dst t1 = (Ok r, t2) ->
               get d t2 = Some (Dir es)).
    { intros t1 r t2 Hsrc1. unfold tree_copytree. rewrite Hsrc, Hsrc1, Hdst.
      destruct (get d t1); [discriminate|].
      destruct (runs_away [item] d es); [discriminate|].
      destruct (put d (Dir es) t1) as [t'|] eqn:Hput; [|discriminate].
      intros [= _ <-]. eapply get_put_same, Hput. }
    unfold tree_exists. rewrite Hdst.
    destruct (get d (w_disk w)) as [x|] eqn:Hd.
    + unfold tree_rmtree. rewrite Hdst, Hd.
      destruct x as [?|es']; [discriminate|].
      destruct d as [|n d'] eqn:Ed; [destruct base; discriminate|].
      rewrite <- Ed in *. cbn [set_disk w_disk].
      destruct (tree_copytree item dst (remove d (w_disk w))) as [[[]|e] t2] eqn:Hcp;
        [|discriminate].
      intros [= _ <-]. cbn. eapply Hcopy; [|exact Hcp].
      rewrite get_remove_other; auto.
    + unfold ret.
      destruct (tree_copytree item dst (w_disk w)) as [[[]|e] t2] eqn:Hcp;
        [|discriminate].
      intros [= _ <-]. cbn. eapply Hcopy; eauto.
  - (* gone *)
    unfold tree_copy2. rewrite Hsrc, Hitem. discriminate.
Qed.

Lemma source_outside_destination root b0 base' item x :
  valid_name item = true ->
  publish_base root = Some (b0 :: base') ->
  x <> b0 ->
  outside (os_path_join root item) [x].
Proof.
  intros Hv Hbase Hx d Hd.
  rewrite (resolve_join _ _ Hv), Hbase in Hd. injection Hd as <-.
  cbn. destruct (String.eqb_spec x b0); [contradiction|].
  destruct (b0 =? x)%string; [|auto]. cbn. destruct base'; auto.
Qed.

Lemma other_destination root base item x :
  valid_name item = true ->
  publish_base root = Some base ->
  item <> x ->
  outside (os_path_join root item) (base ++ [x])%list.
Proof.
  intros Hv Hbase Hx d Hd.
  rewrite (resolve_join _ _ Hv), Hbase in Hd. injection Hd as <-.
  rewrite !is_prefix_app_same. cbn.
  destruct (String.eqb_spec item x); [contradiction|].
  destruct (String.eqb_spec x item); [congruence|]. auto.
Qed.

Lemma deploy_loop_copies root excludes b0 base' (items : list string) :
  let base := b0 :: base' in
  publish_base root = Some base ->
  NoDup items ->
  (forall x, In x items -> valid_name x = true) ->
  (forall x, In x items -> skipped excludes x = false -> x <> b0) ->
  forall count (w wk : world node) c',
    for_in items count (deploy_item root excludes) w = (Ok (inr c'), wk) ->
    forall x,
      In x items -> skipped excludes x = false ->
      (forall data es, get [x] (w_disk w) = Some (File data) ->
                       get (base ++ [x])%list (w_disk w) <> Some (Dir es)) ->
      get (base ++ [x])%list (w_disk wk) = get [x] (w_disk w).
Proof.
  intros base Hbase.
  induction items as [|a items IH]; intros Hnd Hvalid Hb0 count w wk c' Hrun x Hin Hs Hclash;
    [contradiction|].
  inversion Hnd as [|? ? Ha Hnd']; subst.
  simpl for_in in Hrun. unfold bind at 1 in Hrun.
  destruct (deploy_item root excludes a count w) as [[[[]|c1]|e] w1] eqn:Hstep;
    [|discriminate].
  assert (Hva : valid_name a = true) by (apply Hvalid; now left).
  destruct Hin as [<-|Hin].
  - (* the entry handled now: copied, then left alone *)
    assert (Hnow : get (base ++ [a])%list (w_disk w1) = get [a] (w_disk w)).
    { eapply deploy_item_copies; eauto.
      cbn. destruct (String.eqb_spec a b0) as [E|]; [|reflexivity].
      exfalso. eapply Hb0; eauto. now left. }
    rewrite <- Hnow.
    replace wk with (snd (for_in items c1 (deploy_item root excludes) w1))
      by now rewrite Hrun.
    apply (for_in_invariant
             (fun t => get (base ++ [a])%list t = get (base ++ [a])%list (w_disk w1)));
      [|reflexivity].
    intros y s w0 Hy Hw0. rewrite deploy_item_frame; [exact Hw0|].
    apply other_destination; auto.
    + apply Hvalid. now right.
    + intros ->. contradiction.
  - (* a later entry: its source and its destination are as before *)
    assert (Hxa : a <> x) by (intros ->; contradiction).
    assert (Hx0 : x <> b0) by (apply Hb0; [now right|exact Hs]).
    assert (Hsrc : get [x] (w_disk w1) = get [x] (w_disk w)).
    { replace w1 with (snd (deploy_item root excludes a count w)) by now rewrite Hstep.
      apply deploy_item_frame. eapply source_outside_destination; eauto. }
    assert (Hdst : get (base ++ [x])%list (w_disk w1) = get (base ++ [x])%list (w_disk w)).
    { replace w1 with (snd (deploy_item root excludes a count w)) by now rewrite Hstep.
      apply deploy_item_frame. apply other_destination; auto. }
    rewrite <- Hsrc.
    eapply (IH Hnd'); eauto.
    + intros y Hy. apply Hvalid. now right.
    + intros y Hy. apply Hb0. now right.
    + intros data es. rewrite Hsrc, Hdst. apply Hclash.
Qed.

(** X2. The replacement half of C5, where the kinds do not clash.  The
    content root lies inside the working directory, below an entry that
    is not itself published.  When [deploy_files] completes, the content
    root holds, under the name of every entry it did not skip, exactly
    what the working directory holds under that name: a directory that
    was there is replaced, not merged.  A regular file meeting a
    directory of its name in the content root is left out of this. *)
Theorem deploy_files_replaces_entries config (w w' : world node) b0 base' v :
  let root := root_dir (server config) in
  let base := b0 :: base' in
  forallb valid_name (top_names (w_disk w)) = true ->
  NoDup (top_names (w_disk w)) ->
  publish_base root = Some base ->
  (forall x, In x (top_names (w_disk w)) ->
             skipped (excludes_of root) x = false -> x <> b0) ->
  deploy_files config w = (Ok v, w') ->
  forall x,
    In x (top_names (w_disk w)) ->
    skipped (excludes_of root) x = false ->
    (forall data es, get [x] (w_disk w) = Some (File data) ->
                     get (base ++ [x])%list (w_disk w) <> Some (Dir es)) ->
    get (base ++ [x])%list (w_disk w') = get [x] (w_disk w).
Proof.
  intros root base Hnames Hnd Hbase Hb0. unfold deploy_files. fold root.
  unfold bind at 1. unfold logger_info at 1, logger at 1.
  unfold bind at 1. unfold os_listdir at 1.
  cbn [fs_listdir tree_fs]. unfold tree_listdir.
  change (resolve ".") with (Some (@nil string)). cbn [get].
  set (w0 := set_log _ w). change (w_disk w0) with (w_disk w).
  destruct (w_disk w) as [data|es] eqn:Hdisk; [discriminate|].
  cbn [top_names] in *. unfold bind at 1.
  destruct (for_in (map fst es) 0 (deploy_item root (excludes_of root)) w0)
    as [[[[]|c]|e] wk] eqn:Hrun; [|discriminate].
  intros [= _ <-] x Hin Hs Hclash. cbn [w_disk set_log].
  rewrite (deploy_loop_copies root (excludes_of root) b0 base' (map fst es)
             Hbase Hnd) with (w := w0) (count := 0) (c' := c); auto.
  - cbn. now rewrite Hdisk.
  - intros y Hy. rewrite forallb_forall in Hnames. auto.
  - cbn [w0 w_disk set_log]. rewrite Hdisk. exact Hclash.
Qed.

(** X2 on a second rollout over the published tree. *)
Lemma deploy_files_replaces_entries_witness :
  get ["www"; "assets"]
      (w_disk (snd (deploy_files Scenario.config
                      (Scenario.world_on Scenario.published_tree))))
  = get ["assets"] Scenario.published_tree /\
  get ["www"; "index.html"]
      (w_disk (snd (deploy_files Scenario.config
                      (Scenario.world_on Scenario.published_tree))))
  = get ["index.html"] Scenario.published_tree.
Proof.
  pose (w := Scenario.world_on Scenario.published_tree).
  assert (Hfree : forall x,
             In x (top_names (w_disk w)) ->
             skipped (excludes_of "www") x = false -> x <> "www").
  { intros x Hin Hs ->. discriminate. }
  assert (Hnd : NoDup (top_names (w_disk w))).
  { repeat constructor; cbn; intuition discriminate. }
  split.
  - refine (deploy_files_replaces_entries
              Scenario.config w (snd (deploy_files Scenario.config w))
              "www" [] PyNone eq_refl Hnd eq_refl Hfree eq_refl
              "assets" _ eq_refl _).
    + cbn. tauto.
    + intros data es. discriminate.
  - refine (deploy_files_replaces_entries
              Scenario.config w (snd (deploy_files Scenario.config w))
              "www" [] PyNone eq_refl Hnd eq_refl Hfree eq_refl
              "index.html" _ eq_refl _).
    + cbn. tauto.
    + intros data es _. discriminate.
Defined.

(** C5 at a clash of kinds.  The working tree has a regular file [docs]
    and the content root a directory [docs]: [deploy_files] completes,
    the old directory is still there with its old page, and the file was
    put inside it.  The other way round, a directory [docs] over a
    regular file, the removal raises and the publish stops. *)
Theorem deploy_files_kind_clash :
  let r := deploy_files Scenario.config (Scenario.world_on Scenario.file_over_dir) in
  let r' := deploy_files Scenario.config (Scenario.world_on Scenario.dir_over_file) in
  fst r = Ok PyNone /\
  get ["docs"] Scenario.file_over_dir = Some (File "moved to the wiki") /\
  get ["www"; "docs"] (w_disk (snd r))
    = Some (Dir [("guide.html", File "<h1>guide</h1>");
                 ("docs", File "moved to the wiki")]) /\
  fst r' = NotADirectoryError "www/docs" /\
  get ["www"; "docs"] (w_disk (snd r')) = Some (File "see the wiki").
Proof.
  cbv zeta. repeat split; reflexivity.
Qed.

(** ** The controller, on the tree *)









(** * What the stages touch and what they raise *)

Section Footprints.
Context {disk : Type} {FS : FileSystem disk}.
Implicit Type w : world disk.

Section Preserves.
Context {X : Type} (f : world disk -> X).

Lemma preserves_ret {A} (a : A) : preserves f (ret a).
Proof. intros w r w' [= _ <-]. reflexivity. Qed.

Lemma preserves_raise {A} e : preserves f (@raise disk A e).
Proof. intros w r w' [= _ <-]. reflexivity. Qed.

Lemma preserves_bind {A B} (m : M disk A) (k : A -> M disk B) :
  preserves f m -> (forall a, preserves f (k a)) -> preserves f (bind m k).
Proof.
  intros Hm Hk w r w'. unfold bind.
  destruct (m w) as [[a|e] w1] eqn:E.
  - intros Hka. rewrite (Hk a _ _ _ Hka). eapply Hm, E.
  - intros [= _ <-]. eapply Hm, E.
Qed.

Lemma preserves_try {A} c (m : M disk A) h :
  preserves f m -> (forall e, preserves f (h e)) -> preserves f (try_except c m h).
Proof.
  intros Hm Hh w r w'. unfold try_except.
  destruct (m w) as [[a|e] w1] eqn:E.
  - intros [= _ <-]. eapply Hm, E.
  - destruct (c e).
    + intros Hhe. rewrite (Hh e _ _ _ Hhe). eapply Hm, E.
    + intros [= _ <-]. eapply Hm, E.
Qed.

Lemma preserves_if {A} (b : bool) (m1 m2 : M disk A) :
  preserves f m1 -> preserves f m2 -> preserves f (if b then m1 else m2).
Proof. destruct b; auto. Qed.

Lemma preserves_for_in {A S R} (body : A -> S -> M disk (R + S)) xs :
  (forall x s, preserves f (body x s)) -> forall s, preserves f (for_in xs s body).
Proof.
  intros Hbody. induction xs as [|x xs IH]; intros s; simpl.
  - apply preserves_ret.
  - apply preserves_bind; [apply Hbody|].
    intros [v|s']; [apply preserves_ret|apply IH].
Qed.

Hypothesis f_log : forall l w, f (set_log l w) = f w.

Lemma preserves_logger lv msg : preserves f (logger lv msg).
Proof. intros w r w' [= _ <-]. apply f_log. Qed.

Hypothesis f_disk : forall d w, f (set_disk d w) = f w.

Lemma preserves_exists p : preserves f (os_path_exists p).
Proof. intros w r w' [= _ <-]. reflexivity. Qed.

Lemma preserves_isdir p : preserves f (os_path_isdir p).
Proof. intros w r w' [= _ <-]. reflexivity. Qed.

Lemma preserves_listdir p : preserves f (os_listdir p).
Proof. intros w r w' [= _ <-]. reflexivity. Qed.

Lemma preserves_on_disk op : preserves f (on_disk op).
Proof.
  intros w r w'. unfold on_disk. destruct (op (w_disk w)) as [r0 d].
  intros [= _ <-]. apply f_disk.
Qed.

Lemma preserves_clock : preserves f datetime_now_strftime.
Proof. intros w r w' [= _ <-]. reflexivity. Qed.

(** The stages that work on files touch nothing but the disk and the log. *)
Lemma preserves_setup_environment config : preserves f (setup_environment config).
Proof.
  unfold setup_environment.
  repeat first [ apply preserves_bind; [|intros ?] | apply preserves_if
               | apply preserves_logger | apply preserves_exists
               | apply preserves_on_disk | apply preserves_ret ].
Qed.

Lemma preserves_backup config : preserves f (backup_current_version config).
Proof.
  unfold backup_current_version.
  repeat first [ apply preserves_bind; [|intros ?] | apply preserves_if
               | apply preserves_logger | apply preserves_exists
               | apply preserves_listdir | apply preserves_clock
               | apply preserves_on_disk | apply preserves_ret ].
Qed.

Lemma preserves_deploy_item root excludes item count :
  preserves f (deploy_item root excludes item count).
Proof.
  unfold deploy_item.
  repeat first [ apply preserves_bind; [|intros ?] | apply preserves_if
               | apply preserves_logger | apply preserves_exists
               | apply preserves_isdir
               | apply preserves_on_disk | apply preserves_ret ].
Qed.

Lemma preserves_deploy_files config : preserves f (deploy_files config).
Proof.
  unfold deploy_files.
  apply preserves_bind; [apply preserves_logger|intros _].
  apply preserves_bind; [apply preserves_listdir|intros items].
  apply preserves_bind;
    [apply preserves_for_in; intros; apply preserves_deploy_item|].
  intros [[]|count].
  apply preserves_bind; [apply preserves_logger|intros _; apply preserves_ret].
Qed.

Lemma preserves_rollback p config : preserves f (rollback p config).
Proof.
  unfold rollback.
  repeat first [ apply preserves_bind; [|intros ?] | apply preserves_if
               | apply preserves_try; [|intros ?]
               | apply preserves_logger | apply preserves_exists
               | apply preserves_on_disk | apply preserves_ret ].
Qed.

End Preserves.
End Footprints.

Section Raises.
Context {disk : Type} {FS : FileSystem disk}.
Implicit Type w : world disk.

Lemma only_ret {A} (a : A) : raises_exceptions_only (@ret disk A a).
Proof. intros w e w'. discriminate. Qed.

Lemma only_bind {A B} (m : M disk A) (k : A -> M disk B) :
  raises_exceptions_only m -> (forall a, raises_exceptions_only (k a)) ->
  raises_exceptions_only (bind m k).
Proof.
  intros Hm Hk w e w'. unfold bind.
  destruct (m w) as [[a|e0] w1] eqn:E.
  - apply Hk.
  - intros [= <- <-]. eapply Hm, E.
Qed.

Lemma only_try {A} (m : M disk A) h :
  raises_exceptions_only m -> (forall e, raises_exceptions_only (h e)) ->
  raises_exceptions_only (try_except is_Exception m h).
Proof.
  intros Hm Hh w e w'. unfold try_except.
  destruct (m w) as [[a|e0] w1] eqn:E; [discriminate|].
  destruct (is_Exception e0) eqn:He0.
  - apply Hh.
  - intros [= <- <-]. eapply Hm, E.
Qed.

Lemma only_if {A} (b : bool) (m1 m2 : M disk A) :
  raises_exceptions_only m1 -> raises_exceptions_only m2 ->
  raises_exceptions_only (if b then m1 else m2).
Proof. destruct b; auto. Qed.

Lemma only_for_in {A S R} (body : A -> S -> M disk (R + S)) xs :
  (forall x s, raises_exceptions_only (body x s)) ->
  forall s, raises_exceptions_only (for_in xs s body).
Proof.
  intros Hbody. induction xs as [|x xs IH]; intros s; simpl.
  - apply only_ret.
  - apply only_bind; [apply Hbody|].
    intros [v|s']; [apply only_ret|apply IH].
Qed.

Lemma only_logger lv msg : raises_exceptions_only (logger lv msg : M disk unit).
Proof. intros w e w'. discriminate. Qed.

Lemma only_exists p : raises_exceptions_only (os_path_exists p : M disk (bool)).
Proof. intros w e w'. discriminate. Qed.

Lemma only_isdir p : raises_exceptions_only (os_path_isdir p : M disk (bool)).
Proof. intros w e w'. discriminate. Qed.

Lemma only_clock : raises_exceptions_only (@datetime_now_strftime disk).
Proof. intros w e w'. discriminate. Qed.

Hypothesis os_errors : raises_os_errors FS.

Lemma only_listdir p : raises_exceptions_only (os_listdir p : M disk (list string)).
Proof.
  intros w e w'. unfold os_listdir. intros [= E <-].
  pose proof (listdir_raises FS os_errors p (w_disk w)) as H.
  now rewrite E in H.
Qed.

Lemma only_on_disk (op : disk -> outcome unit * disk) :
  (forall d, exception_or_value (fst (op d))) ->
  raises_exceptions_only (on_disk op).
Proof.
  intros Hop w e w'. unfold on_disk. specialize (Hop (w_disk w)).
  destruct (op (w_disk w)) as [r d]. intros [= -> <-]. exact Hop.
Qed.

Lemma only_makedirs p : raises_exceptions_only (os_makedirs p : M disk (unit)).
Proof. apply only_on_disk, (makedirs_raises FS os_errors). Qed.

Lemma only_rmtree p : raises_exceptions_only (shutil_rmtree p : M disk (unit)).
Proof. apply only_on_disk, (rmtree_raises FS os_errors). Qed.

Lemma only_copytree s p : raises_exceptions_only (shutil_copytree s p : M disk (unit)).
Proof. apply only_on_disk, (copytree_raises FS os_errors). Qed.

Lemma only_copy2 s p : raises_exceptions_only (shutil_copy2 s p : M disk (unit)).
Proof. apply only_on_disk, (copy2_raises FS os_errors). Qed.

Ltac only_steps :=
  repeat first [ apply only_bind; [|intros ?] | apply only_if
               | apply only_try; [|intros ?]
               | apply only_logger | apply only_exists | apply only_isdir
               | apply only_listdir | apply only_clock | apply only_makedirs
               | apply only_rmtree | apply only_copytree | apply only_copy2
               | apply only_ret ].

Lemma only_setup_environment config :
  raises_exceptions_only (setup_environment config : M disk unit).
Proof. unfold setup_environment. only_steps. Qed.

Lemma only_backup config :
  raises_exceptions_only (backup_current_version config : M disk (option string)).
Proof. unfold backup_current_version. only_steps. Qed.

Lemma only_deploy_files config :
  raises_exceptions_only (deploy_files config : M disk pyval).
Proof.
  unfold deploy_files.
  apply only_bind; [apply only_logger|intros _].
  apply only_bind; [apply only_listdir|intros items].
  apply only_bind.
  - apply only_for_in. intros item count. unfold deploy_item. only_steps.
  - intros [[]|count]. only_steps.
Qed.

(** [rollback] never raises: what goes wrong is logged. *)
Lemma rollback_returns p config w :
  exists w', rollback p config w = (Ok tt, w').
Proof.
  unfold rollback. destruct (negb (truthy p)); [eexists; reflexivity|].
  unfold bind at 1. unfold logger_warning at 1, logger at 1.
  set (w0 := set_log _ w).
  set (body := (e <- os_path_exists _ ;; _)).
  assert (Hbody : raises_exceptions_only body) by (unfold body; only_steps).
  unfold try_except.
  destruct (body w0) as [[[]|e] w1] eqn:E; [eexists; reflexivity|].
  rewrite (Hbody _ _ _ E). eexists. reflexivity.
Qed.

End Raises.

Section Outcome.
Context {disk : Type} {FS : FileSystem disk}.
Implicit Type w : world disk.

Lemma bind_cases {A B} (m : M disk A) (k : A -> M disk B) w r w' :
  bind m k w = (r, w') ->
  (exists a w1, m w = (Ok a, w1) /\ k a w1 = (r, w')) \/
  (exists e, m w = (Raise e, w') /\ r = Raise e).
Proof.
  unfold bind. destruct (m w) as [[a|e] w1].
  - intros H. left. eauto.
  - intros [= <- <-]. right. eauto.
Qed.

Lemma health_check_result config w :
  exists b w',
    health_check config w = (Ok b, w') /\
    (b = true ->
     exists k, answers_200 (w_http w) (health_url config)
                           (timeout (health_check_cfg config)) k = true).
Proof.
  unfold health_check. unfold bind at 1. unfold logger_info at 1, logger at 1.
  set (w0 := set_log _ w).
  destruct (health_loop config (health_url config)
              (range (retries (health_check_cfg config))) w0)
    as (x & w1 & E & _ & _ & Hcase).
  unfold bind at 1. rewrite E.
  destruct Hcase as [(-> & i & _ & _ & Hok & _)|(-> & _)].
  - exists true, w1. split; [reflexivity|]. intros _. eexists. exact Hok.
  - eexists false, _. split; [reflexivity|]. discriminate.
Qed.

Lemma start_server_returns config w :
  (forall h p e, w_connect_ex w h p = Raise e -> is_Exception e = true) ->
  (forall h p e, w_bind w h p = Some e -> is_Exception e = true) ->
  exists res w',
    start_server config w = (Ok res, w') /\ peers w' = peers w.
Proof.
  intros Hprobe Hbind.
  unfold start_server, try_except, bind, socket_connect_ex, TCPServer.
  destruct (w_connect_ex w _ _) as [rc|e] eqn:Ep.
  - destruct (rc =? 0).
    + eexists _, _. split; reflexivity.
    + cbn [w_bind set_bind_attempts].
      destruct (w_bind w _ _) as [e|] eqn:Eb.
      * rewrite (Hbind _ _ _ Eb). eexists _, _. split; reflexivity.
      * eexists _, _. split; reflexivity.
  - rewrite (Hprobe _ _ _ Ep). eexists _, _. split; reflexivity.
Qed.

Hypothesis os_errors : raises_os_errors FS.

Let peers_log : forall l w, peers (set_log l w) = peers w := fun _ _ => eq_refl.
Let peers_disk : forall (d : disk) w, peers (set_disk d w) = peers w :=
  fun _ _ => eq_refl.

(** X5.  However a run of [main] goes, it does not return: it ends in
    [sys.exit(0)], in [sys.exit(1)] or in an exception that is not caught
    (a failure of the set-up or of the snapshot).  It ends in
    [sys.exit(0)] only with a configuration loaded and after a GET of
    the health URL was answered with status 200. *)
Theorem main_outcome w r w' :
  (forall h p e, w_connect_ex w h p = Raise e -> is_Exception e = true) ->
  (forall h p e, w_bind w h p = Some e -> is_Exception e = true) ->
  main w = (r, w') ->
  exists e,
    r = Raise e /\
    (is_Exception e = true \/
     e = SystemExit 1 \/
     (e = SystemExit 0 /\
      exists config k,
        w_config w = ConfigJSON config /\
        answers_200 (w_http w) (health_url config)
                    (timeout (health_check_cfg config)) k = true)).
Proof.
  intros Hprobe Hbind. unfold main.
  unfold bind at 1. unfold logger_info at 1, logger at 1.
  set (w0 := set_log _ w).
  intros H. apply bind_cases in H as [(config & wa & Ecfg & H)|(e & Ecfg & ->)].
  2:{ exists e. split; [reflexivity|].
      revert Ecfg. unfold load_config. cbn [w_config w0 set_log].
      destruct (w_config w) as [| |cls msg|c]; [| | |discriminate];
        unfold bind, logger_error, logger, sys_exit, raise; intros [= <- _];
        [right; left|right; left|left]; reflexivity. }
  assert (Hcfg : w_config w = ConfigJSON config /\ peers wa = peers w).
  { revert Ecfg. unfold load_config. cbn [w_config w0 set_log].
    destruct (w_config w);
      unfold bind, logger_error, logger, sys_exit, raise, ret;
      try discriminate.
    intros [= <- <-]. auto. }
  destruct Hcfg as (Hcfg & Pa). clear Ecfg.
  apply bind_cases in H as [([] & wb & Edep & H)|(e & Edep & ->)];
    [|discriminate].
  assert (Pb : peers wb = peers w).
  { revert Edep. unfold check_dependencies, logger_info, logger.
    intros [= <-]. exact Pa. }
  clear Edep.
  apply bind_cases in H as [([] & w1 & Eset & H)|(e & Eset & ->)].
  2:{ exists e. split; [reflexivity|]. left.
      eapply only_setup_environment; eauto. }
  assert (P1 : peers w1 = peers w).
  { rewrite <- Pb. eapply (preserves_setup_environment peers); eauto. }
  apply bind_cases in H as [(backup_path & w2 & Ebak & H)|(e & Ebak & ->)].
  2:{ exists e. split; [reflexivity|]. left. eapply only_backup; eauto. }
  assert (P2 : peers w2 = peers w).
  { rewrite <- P1. eapply (preserves_backup peers); eauto. }
  apply bind_cases in H as [([] & w3 & Epub & H)|(e & Epub & ->)].
  2:{ (* publishing raised: the handler ends with sys.exit(1) *)
      exists e. split; [reflexivity|]. right. left.
      revert Epub. unfold try_except, bind at 1.
      destruct (deploy_files config w2) as [[v|e0] wp] eqn:Ed; [discriminate|].
      rewrite (only_deploy_files os_errors config _ _ _ Ed).
      unfold bind at 1. unfold logger_error at 1, logger at 1.
      set (wl := set_log _ wp).
      unfold bind at 1.
      destruct (truthy backup_path).
      - destruct (rollback_returns os_errors backup_path config wl) as (wr & ->).
        now intros [= <- _].
      - now intros [= <- _]. }
  assert (P3 : peers w3 = peers w).
  { rewrite <- P2. revert Epub. unfold try_except, bind at 1.
    destruct (deploy_files config w2) as [[v|e0] wp] eqn:Ed.
    - intros [= <-]. eapply (preserves_deploy_files peers); eauto.
    - rewrite (only_deploy_files os_errors config _ _ _ Ed).
      unfold bind at 1. unfold logger_error at 1, logger at 1.
      unfold bind at 1.
      destruct (truthy backup_path).
      + destruct (rollback_returns os_errors backup_path config
                    (set_log (w_log wp ++ [(ERROR, "Deployment failed: " ++ str_exn e0)]) wp))
          as (wr & ->). discriminate.
      + discriminate. }
  clear Epub.
  assert (Hprobe3 : forall h p e, w_connect_ex w3 h p = Raise e -> is_Exception e = true).
  { intros h p e. replace (w_connect_ex w3) with (w_connect_ex w); [apply Hprobe|].
    now injection P3. }
  assert (Hbind3 : forall h p e, w_bind w3 h p = Some e -> is_Exception e = true).
  { intros h p e. replace (w_bind w3) with (w_bind w); [apply Hbind|].
    now injection P3. }
  destruct (start_server_returns config w3 Hprobe3 Hbind3) as (server & w4 & Esrv & P4).
  apply bind_cases in H as [(server' & w4' & Esrv' & H)|(e & Esrv' & ->)];
    [|congruence].
  rewrite Esrv in Esrv'. injection Esrv' as <- <-.
  destruct server as [httpd|].
  2:{ exists (SystemExit 1). split; [|auto].
      revert H. unfold bind, logger_error, logger, sys_exit, raise.
      now intros [= <- _]. }
  destruct (health_check_result config w4) as (healthy & w5 & Ehc & H200).
  apply bind_cases in H as [(healthy' & w5' & Ehc' & H)|(e & Ehc' & ->)];
    [|congruence].
  rewrite Ehc in Ehc'. injection Ehc' as <- <-.
  destruct healthy; cbn [negb] in H.
  - (* verified: held until the interrupt *)
    exists (SystemExit 0). split.
    + revert H. unfold bind, logger_info, logger, try_except,
        sleep_until_interrupt, server_shutdown, sys_exit, raise.
      cbn [is_KeyboardInterrupt]. now intros [= <- _].
    + right. right. split; [reflexivity|].
      destruct (H200 eq_refl) as (k & Hk). exists config, k.
      split; [exact Hcfg|].
      replace (w_http w) with (w_http w4); [exact Hk|].
      rewrite P3 in P4. now injection P4.
  - exists (SystemExit 1). split; [|auto].
    revert H. unfold bind at 1. unfold logger_error at 1, logger at 1.
    unfold bind at 1. unfold server_shutdown at 1.
    unfold bind at 1.
    destruct (truthy backup_path).
    + match goal with
      | |- context [rollback backup_path config ?x] =>
          destruct (rollback_returns os_errors backup_path config x) as (wr & ->)
      end.
      now intros [= <- _].
    + now intros [= <- _].
Qed.

End Outcome.
(** * More of the stages *)

(** ** The file systems raise only exceptions *)

Lemma tree_raises_os_errors : raises_os_errors tree_fs.
Proof.
  split; cbn [fs_listdir fs_makedirs fs_rmtree fs_copytree fs_copy2 tree_fs].
  - intros p d. unfold tree_listdir.
    destruct (resolve p); [destruct (get _ d) as [[?|?]|]|]; exact I || reflexivity.
  - intros p d. unfold tree_makedirs.
    destruct (resolve p);
      [destruct (get _ d); [|destruct (put _ _ d)]|destruct (p =? "")%string];
      exact I || reflexivity.
  - intros p d. unfold tree_rmtree.
    destruct (resolve p) as [[|]|]; [destruct (get _ d) as [[?|?]|]
                                    |destruct (get _ d) as [[?|?]|]|];
      exact I || reflexivity.
  - intros s p d. unfold tree_copytree.
    destruct (resolve s); [|reflexivity].
    destruct (get _ d) as [[?|?]|]; try reflexivity.
    destruct (resolve p); [|reflexivity].
    destruct (get _ d); [reflexivity|].
    destruct (runs_away _ _ _); [reflexivity|].
    destruct (put _ _ d); exact I || reflexivity.
  - intros s p d. unfold tree_copy2.
    destruct (resolve s); [|reflexivity].
    destruct (get _ d) as [[?|?]|]; try reflexivity.
    destruct (resolve p); [|reflexivity]. cbv zeta.
    destruct (path_eqb _ _); [reflexivity|].
    destruct (get _ d) as [[?|?]|]; try reflexivity;
      (destruct (get (removelast _) d) as [[?|?]|]; try reflexivity;
       destruct (put _ _ d); exact I || reflexivity).
Qed.

Lemma failing_raises_os_errors : raises_os_errors failing_fs.
Proof.
  pose proof tree_raises_os_errors as [Hl Hm Hr Hc H2].
  cbn [fs_listdir fs_makedirs fs_rmtree fs_copytree fs_copy2 tree_fs] in *.
  split; cbn [fs_listdir fs_makedirs fs_rmtree fs_copytree fs_copy2 failing_fs].
  - intros p d. apply Hl.
  - intros p [t [|k]]; unfold charged; cbn [fst snd]; [reflexivity|].
    specialize (Hm p t). destruct (tree_makedirs p t). exact Hm.
  - intros p [t [|k]]; unfold charged; cbn [fst snd]; [reflexivity|].
    specialize (Hr p t). destruct (tree_rmtree p t). exact Hr.
  - intros s p [t [|k]]; unfold charged; cbn [fst snd]; [reflexivity|].
    specialize (Hc s p t). destruct (tree_copytree s p t). exact Hc.
  - intros s p [t [|k]]; unfold charged; cbn [fst snd]; [reflexivity|].
    specialize (H2 s p t). destruct (tree_copy2 s p t). exact H2.
Qed.

Section Stages.
Context {disk : Type} {FS : FileSystem disk}.
Implicit Type w : world disk.
Implicit Type config : Config.

(** ** start_server *)

(** X6.  [start_server] hands back a server exactly when the probe of
    the port does not connect and binding raises nothing; the server is
    then the one for the configured host, port and content root, it is
    running, and the address was bound once.  In every other case it
    returns [None] after logging an error, with no server started.  It
    raises nothing itself. *)
Theorem start_server_handle_exactly_when_bound config w :
  let h := host (server config) in
  let p := port (server config) in
  let served := {| srv_host := h; srv_port := p;
                   srv_directory := root_dir (server config);
                   srv_config := config |} in
  (forall e, w_connect_ex w (probe_host h) p = Raise e -> is_Exception e = true) ->
  (forall e, w_bind w h p = Some e -> is_Exception e = true) ->
  exists res w',
    start_server config w = (Ok res, w') /\
    (res = Some served <->
     (exists rc, w_connect_ex w (probe_host h) p = Ok rc /\ rc <> 0) /\
     w_bind w h p = None) /\
    (res = Some served \/ res = None) /\
    (res = Some served ->
     w_serving w' = (w_serving w ++ [served])%list /\
     w_bind_attempts w' = (w_bind_attempts w ++ [(h, p)])%list) /\
    (res = None ->
     w_serving w' = w_serving w /\
     exists msg, w_log w' = (w_log w ++ [(ERROR, msg)])%list).
Proof.
  intros h p served Hprobe Hbind.
  unfold start_server, try_except, bind, socket_connect_ex, TCPServer.
  fold h p.
  destruct (w_connect_ex w (probe_host h) p) as [rc|e] eqn:Ep.
  - destruct (Z.eqb_spec rc 0) as [->|Hrc].
    + eexists None, _. split; [reflexivity|].
      split; [split; [discriminate|intros ((rc & [= <-] & Hrc) & _); congruence]|].
      split; [now right|]. split; [discriminate|].
      intros _. cbn. eauto.
    + cbn [w_bind set_bind_attempts].
      destruct (w_bind w h p) as [e|] eqn:Eb.
      * rewrite (Hbind _ eq_refl). eexists None, _. split; [reflexivity|].
        split; [split; [discriminate|intros (_ & [=])]|].
        split; [now right|]. split; [discriminate|].
        intros _. cbn. eauto.
      * eexists (Some served), _. split; [reflexivity|].
        split; [split; [intros _; eauto|reflexivity]|].
        split; [now left|]. split; [|discriminate].
        intros _. cbn. auto.
  - rewrite (Hprobe _ eq_refl). eexists None, _. split; [reflexivity|].
    split; [split; [discriminate|intros ((rc & [=] & _) & _)]|].
    split; [now right|]. split; [discriminate|].
    intros _. cbn. eauto.
Qed.

(** ** health_check *)

Lemma health_loop_sleeps config url (idx : list Z) : forall w r w',
  for_in idx tt (health_attempt config url) w = (Ok r, w') ->
  (w_sleeps w' + (match r with inl _ => 1 | inr _ => 0 end)
   = w_sleeps w + (w_gets w' - w_gets w))%nat /\
  (w_gets w <= w_gets w')%nat /\
  w_serving w' = w_serving w /\
  w_bind_attempts w' = w_bind_attempts w.
Proof.
  induction idx as [|i idx IH]; intros w r w'.
  - intros [= <- <-]. cbn. repeat split; lia.
  - simpl for_in.
    destruct (answers_200 (w_http w) url (timeout (health_check_cfg config))
                          (w_gets w)) eqn:Hit; [unfold bind at 1|].
    + rewrite (health_attempt_hit _ _ _ _ Hit). intros [= <- <-].
      cbn [w_sleeps w_gets w_serving w_bind_attempts set_log set_gets].
      repeat split; lia.
    + unfold answers_200 in Hit.
      unfold health_attempt, try_except, bind, requests_get.
      destruct (w_http w (w_gets w) url _) as [code|cls msg];
        [rewrite Hit|]; cbn -[for_in];
        intros E; destruct (IH _ _ _ E) as (Hs & Hg & Hsv & Hb);
        cbn [w_sleeps w_gets w_serving w_bind_attempts set_log set_gets set_sleeps]
          in Hs, Hg, Hsv, Hb; repeat split; auto; lia.
Qed.

(** X7.  [health_check] sleeps one second after every attempt that
    fails, the last one included: the seconds slept are the GETs sent,
    less the one that was answered with 200.  A check that fails has
    slept as many seconds as there are retries.  It touches neither the
    disk nor the servers. *)
Theorem health_check_sleeps_after_each_failure config w :
  exists b w',
    health_check config w = (Ok b, w') /\
    (w_sleeps w' + (if b then 1 else 0) = w_sleeps w + (w_gets w' - w_gets w))%nat /\
    (b = false ->
     w_sleeps w' = (w_sleeps w + Z.to_nat (retries (health_check_cfg config)))%nat) /\
    w_disk w' = w_disk w /\
    w_serving w' = w_serving w /\
    w_bind_attempts w' = w_bind_attempts w.
Proof.
  unfold health_check. unfold bind at 1. unfold logger_info at 1, logger at 1.
  set (w0 := set_log _ w).
  destruct (health_loop config (health_url config)
              (range (retries (health_check_cfg config))) w0)
    as (x & w1 & E & _ & Hd & Hcase).
  destruct (health_loop_sleeps _ _ _ _ _ _ E) as (Hs & Hg & Hsv & Hb).
  rewrite range_length in Hcase.
  change (w_sleeps w0) with (w_sleeps w) in Hs.
  change (w_gets w0) with (w_gets w) in Hs, Hg, Hcase.
  unfold bind at 1. rewrite E.
  destruct Hcase as [(-> & _)|(-> & Hgets & _)].
  - exists true, w1. split; [reflexivity|]. repeat split; auto. discriminate.
  - eexists false, _. split; [reflexivity|]. cbn.
    repeat split; auto; lia.
Qed.

(** ** deploy_files *)

Lemma deploy_loop_all_skipped root excludes (items : list string) :
  forallb (skipped excludes) items = true ->
  forall count w,
    for_in items count (deploy_item root excludes) w = (Ok (inr count), w).
Proof.
  induction items as [|item items IH]; intros Hall count w; [reflexivity|].
  cbn [forallb] in Hall. apply andb_prop in Hall as (Hs & Hall).
  simpl for_in. unfold bind at 1, deploy_item at 1. rewrite Hs.
  cbn. now apply IH.
Qed.

(** X8.  When every entry of the working directory is excluded or
    hidden, [deploy_files] copies nothing: it logs that 0 items were
    deployed and leaves the disk as it is. *)
Theorem deploy_files_nothing_to_publish config w items :
  let root := root_dir (server config) in
  fs_listdir "." (w_disk w) = Ok items ->
  forallb (skipped (excludes_of root)) items = true ->
  deploy_files config w =
    (Ok PyNone,
     set_log (w_log w ++ [(INFO, "Deploying files...");
                          (INFO, ("Deployed 0 items to " ++ root)%string)]) w).
Proof.
  intros root Hls Hall. unfold deploy_files. fold root.
  unfold bind at 1. unfold logger_info at 1, logger at 1.
  unfold bind at 1. unfold os_listdir at 1. cbn [w_disk set_log]. rewrite Hls.
  unfold bind at 1. rewrite (deploy_loop_all_skipped _ _ _ Hall).
  cbn. rewrite <- app_assoc. reflexivity.
Qed.

(** ** main *)

(** X9.  Without a configuration file, or with one that is not JSON,
    [main] logs the error and exits with status 1 before anything else:
    the disk, the network and the clock are as they were. *)
Theorem main_stops_at_a_configuration_error w :
  w_config w = ConfigMissing \/ w_config w = ConfigInvalid ->
  exists msg,
    main w =
      (Raise (SystemExit 1),
       set_log (w_log w ++ [(INFO, "Starting deployment process...");
                            (ERROR, msg)]) w).
Proof.
  intros Hcfg. unfold main, bind, load_config, logger_info, logger_error, logger,
    sys_exit, raise.
  cbn [w_config set_log].
  destruct Hcfg as [-> | ->]; eexists; cbn; rewrite <- app_assoc; reflexivity.
Qed.

(** X10.  A rollout whose health check passes is committed: [main] logs
    the success, keeps the server running until the interrupt (a sleep of
    one second per round), shuts it down and exits with status 0.  The
    content stays as published; nothing is rolled back. *)
Theorem main_verified_serves_until_interrupt
    w config w1 backup_path w2 v w3 httpd w4 w5 :
  prologue w = (Ok config, w1) ->
  backup_current_version config w1 = (Ok backup_path, w2) ->
  deploy_files config w2 = (Ok v, w3) ->
  start_server config w3 = (Ok (Some httpd), w4) ->
  health_check config w4 = (Ok true, w5) ->
  exists w',
    main w = (Raise (SystemExit 0), w') /\
    exit_status (fst (main w)) = 0 /\
    w_disk w' = w_disk w3 /\
    w_sleeps w' = (w_sleeps w5 + w_interrupt_after w5)%nat /\
    (forall s, In s (w_serving w') -> same_address httpd s = false) /\
    w_log w' = (w_log w5 ++ [(INFO, "Deployment SUCCESSFUL. System is online.");
                             (INFO, "Stopping server...")])%list.
Proof.
  intros Hpro Hbak Hdep Hsrv Hhc.
  assert (Hmain : exists w', main w = (Raise (SystemExit 0), w') /\
             w_disk w' = w_disk w5 /\
             w_sleeps w' = (w_sleeps w5 + w_interrupt_after w5)%nat /\
             w_serving w' = filter (fun x => negb (same_address httpd x)) (w_serving w5) /\
             w_log w' = (w_log w5 ++ [(INFO, "Deployment SUCCESSFUL. System is online.");
                                      (INFO, "Stopping server...")])%list).
  { revert Hpro. unfold main, prologue, bind, try_except.
    destruct (logger_info _ w) as [[[]|e0] wa]; [|discriminate].
    destruct (load_config wa) as [[c|e1] wb]; [|discriminate].
    destruct (check_dependencies wb) as [[[]|e2] wc]; [|discriminate].
    destruct (setup_environment c wc) as [[[]|e3] wd]; [|discriminate].
    intros [= -> ->].
    rewrite Hbak, Hdep. cbn [ret]. unfold ret at 1. rewrite Hsrv, Hhc.
    cbn. eexists. split; [reflexivity|]. cbn.
    rewrite <- app_assoc. repeat split. }
  destruct Hmain as (w' & Hmain & Hd & Hs & Hsv & Hl).
  exists w'. rewrite Hmain. repeat split; auto.
  - rewrite Hd, (health_check_disk _ _ _ _ Hhc).
    apply (start_server_disk _ _ _ _ Hsrv).
  - intros s. rewrite Hsv. intros Hin.
    apply filter_In in Hin as (_ & Hin). now apply negb_true_iff in Hin.
Qed.

(** X11.  When publishing fails and no snapshot was taken (the content
    root was empty), [main] logs the failure and exits with status 1
    without calling [rollback]: the disk stays as the failed publish
    left it. *)
Theorem main_failed_publish_without_snapshot w config w1 w2 e w3 :
  prologue w = (Ok config, w1) ->
  backup_current_version config w1 = (Ok None, w2) ->
  deploy_files config w2 = (Raise e, w3) ->
  is_Exception e = true ->
  main w =
    (Raise (SystemExit 1),
     set_log (w_log w3 ++ [(ERROR, ("Deployment failed: " ++ str_exn e)%string)]) w3).
Proof.
  intros Hpro Hbak Hdep He.
  revert Hpro. unfold main, prologue, bind, try_except.
  destruct (logger_info _ w) as [[[]|e0] wa]; [|discriminate].
  destruct (load_config wa) as [[c|e1] wb]; [|discriminate].
  destruct (check_dependencies wb) as [[[]|e2] wc]; [|discriminate].
  destruct (setup_environment c wc) as [[[]|e3] wd]; [|discriminate].
  intros [= -> ->].
  rewrite Hbak, Hdep, He. reflexivity.
Qed.

Lemma main_backup_raises w config w1 e w2 :
  prologue w = (Ok config, w1) ->
  backup_current_version config w1 = (Raise e, w2) ->
  main w = (Raise e, w2).
Proof.
  intros Hpro Hbak.
  revert Hpro. unfold main, prologue, bind, try_except.
  destruct (logger_info _ w) as [[[]|e0] wa]; [|discriminate].
  destruct (load_config wa) as [[c|e1] wb]; [|discriminate].
  destruct (check_dependencies wb) as [[[]|e2] wc]; [|discriminate].
  destruct (setup_environment c wc) as [[[]|e3] wd]; [|discriminate].
  intros [= -> ->].
  now rewrite Hbak.
Qed.

End Stages.

(** ** On the tree *)

Lemma put_fresh_keeps p new : forall t t',
  get p t = None -> put p new t = Some t' ->
  forall q x, get q t = Some x ->
    exists x', get q t' = Some x' /\ (forall d, x = File d -> x' = File d).
Proof.
  induction p as [|n p IH]; intros t t' Hfree Hput q x Hq; [discriminate|].
  destruct t as [data|es]; [discriminate|].
  cbn [get put] in Hfree, Hput.
  destruct q as [|m q].
  - injection Hq as <-. eexists. split; [reflexivity|discriminate].
  - cbn [get] in Hq.
    destruct (String.eqb_spec n m) as [<-|Hnm].
    + destruct (lookup_entry n es) as [c|] eqn:Hc; [|discriminate].
      destruct (put p new c) as [c'|] eqn:Hc'; [|discriminate].
      injection Hput as <-. cbn [get]. rewrite lookup_set_same.
      eapply IH; eauto.
    + destruct (put p new _) as [c'|]; [|discriminate].
      injection Hput as <-. cbn [get]. rewrite (lookup_set_other _ _ _ _ Hnm).
      exists x. split; auto.
Qed.


Lemma makedirs_keeps p t t' :
  tree_makedirs p t = (Ok tt, t') ->
  tree_exists p t' = true /\
  forall q x, get q t = Some x ->
    exists x', get q t' = Some x' /\ (forall d, x = File d -> x' = File d).
Proof.
  unfold tree_makedirs, tree_exists.
  destruct (resolve p) as [r|]; [|destruct (p =? "")%string; discriminate].
  destruct (get r t) eqn:Hfree; [discriminate|].
  destruct (put r (Dir []) t) as [t1|] eqn:Hput; [|discriminate].
  intros [= <-]. rewrite (get_put_same _ _ _ _ Hput). split; [reflexivity|].
  now apply (put_fresh_keeps _ _ _ _ Hfree Hput).
Qed.

Lemma exists_kept p (t t' : node) :
  (forall q x, get q t = Some x ->
    exists x', get q t' = Some x' /\ (forall d, x = File d -> x' = File d)) ->
  tree_exists p t = true -> tree_exists p t' = true.
Proof.
  intros Hk. unfold tree_exists. destruct (resolve p) as [r|]; [|discriminate].
  destruct (get r t) as [x|] eqn:Hx; [|discriminate].
  destruct (Hk _ _ Hx) as (x' & -> & _). reflexivity.
Qed.

(** X13.  After [setup_environment] returns, the content root and the
    backups directory exist; no regular file was changed or removed; and
    a second run changes nothing on the disk. *)
Theorem setup_environment_makes_both_directories config (w w' : world node) :
  setup_environment config w = (Ok tt, w') ->
  tree_exists (root_dir (server config)) (w_disk w') = true /\
  tree_exists BACKUP_DIR (w_disk w') = true /\
  (forall q d, get q (w_disk w) = Some (File d) ->
               get q (w_disk w') = Some (File d)) /\
  setup_environment config w' =
    (Ok tt, set_log (w_log w' ++ [(INFO, "Setting up environment...")]) w').
Proof.
  intros Hrun.
  assert (Hboth : tree_exists (root_dir (server config)) (w_disk w') = true /\
                  tree_exists BACKUP_DIR (w_disk w') = true /\
                  (forall q x, get q (w_disk w) = Some x ->
                     exists x', get q (w_disk w') = Some x' /\
                                (forall d, x = File d -> x' = File d))).
  { revert Hrun.
    unfold setup_environment, bind, os_path_exists, os_makedirs, on_disk,
      logger_info, logger, ret.
    cbn [w_disk set_log fs_exists fs_makedirs tree_fs].
    destruct (tree_exists (root_dir (server config)) (w_disk w)) eqn:Hroot;
      cbn [negb w_disk set_log set_disk].
    - cbn [w_disk set_log].
      destruct (tree_exists BACKUP_DIR (w_disk w)) eqn:Hbak; cbn [negb w_disk set_log set_disk].
      + intros H; injection H as <-. cbn [w_disk set_log]. repeat split; eauto.
      + destruct (tree_makedirs BACKUP_DIR (w_disk w)) as [[[]|e] t1] eqn:Hmk;
          [|discriminate].
        intros H; injection H as <-. cbn [w_disk set_log set_disk].
        destruct (makedirs_keeps _ _ _ Hmk) as (Hb & Hk).
        repeat split; auto. now apply (exists_kept _ _ _ Hk).
    - destruct (tree_makedirs (root_dir (server config)) (w_disk w))
        as [[[]|e] t1] eqn:Hmk; [|discriminate].
      cbn [w_disk set_log set_disk].
      destruct (makedirs_keeps _ _ _ Hmk) as (Hr & Hk).
      destruct (tree_exists BACKUP_DIR t1) eqn:Hbak; cbn [negb w_disk set_log set_disk].
      + intros H; injection H as <-. cbn [w_disk set_log set_disk]. repeat split; auto.
      + destruct (tree_makedirs BACKUP_DIR t1) as [[[]|e] t2] eqn:Hmk2;
          [|discriminate].
        intros H; injection H as <-. cbn [w_disk set_log set_disk].
        destruct (makedirs_keeps _ _ _ Hmk2) as (Hb & Hk2).
        split; [now apply (exists_kept _ _ _ Hk2)|]. split; [exact Hb|].
        intros q x Hx. destruct (Hk _ _ Hx) as (x1 & Hx1 & Hf1).
        destruct (Hk2 _ _ Hx1) as (x2 & Hx2 & Hf2).
        exists x2. split; auto. }
  destruct Hboth as (Hr & Hb & Hk).
  split; [exact Hr|]. split; [exact Hb|]. split.
  - intros q d Hq. destruct (Hk _ _ Hq) as (x' & Hx' & Hf).
    now rewrite Hx', (Hf d eq_refl).
  - unfold setup_environment, bind, os_path_exists, logger_info, logger, ret.
    cbn [w_disk set_log fs_exists tree_fs]. rewrite Hr. cbn [negb w_disk set_log].
    rewrite Hb. reflexivity.
Qed.

(** X14.  [backup_current_version] only adds: however it ends, every
    regular file reads as before and so does every path outside the
    snapshot path; when it returns [None] nothing at all has changed. *)
Theorem backup_changes_no_file config (w w' : world node) r :
  backup_current_version config w = (r, w') ->
  (forall q d, get q (w_disk w) = Some (File d) ->
               get q (w_disk w') = Some (File d)) /\
  (forall q, outside (snapshot_name (w_clock w)) q ->
             get q (w_disk w') = get q (w_disk w)) /\
  (r = Ok None -> w' = w).
Proof.
  pose proof (backup_unfold config w) as Hu. cbv zeta in Hu. rewrite Hu. clear Hu.
  assert (Hcopy : forall t',
            snd (tree_copytree (root_dir (server config))
                   (snapshot_name (w_clock w)) (w_disk w)) = t' ->
            forall q d, get q (w_disk w) = Some (File d) -> get q t' = Some (File d)).
  { unfold tree_copytree.
    destruct (resolve (root_dir (server config))) as [rs|]; [|now intros t' <-].
    destruct (get rs (w_disk w)) as [[data|es]|]; try now intros t' <-.
    destruct (resolve (snapshot_name (w_clock w))) as [rd|]; [|now intros t' <-].
    destruct (get rd (w_disk w)) eqn:Hfree; [now intros t' <-|].
    destruct (runs_away rs rd es); [now intros t' <-|].
    destruct (put rd (Dir es) (w_disk w)) as [t1|] eqn:Hput; [|now intros t' <-].
    intros t' <- q d Hq. cbn [snd].
    destruct (put_fresh_keeps _ _ _ _ Hfree Hput _ _ Hq) as (x' & -> & Hf).
    now rewrite (Hf d eq_refl). }
  pose proof (fun q => copytree_frame (root_dir (server config))
                         (snapshot_name (w_clock w)) (w_disk w) q) as Hframe.
  destruct (content_root config (w_disk w)) as [[data|[|e0 es]]|].
  - intros [= <- <-]. repeat split; auto.
  - intros [= <- <-]. repeat split; auto.
  - destruct (tree_copytree _ _ (w_disk w)) as [[[]|e] t'];
      intros [= <- <-]; cbn [w_disk set_log set_disk];
      (split; [apply Hcopy; reflexivity|]);
      (split; [intros q Hq; apply (Hframe q Hq)|discriminate]).
  - intros [= <- <-]. repeat split; auto.
Qed.

(** X12.  The snapshot path has the clock to the second in its name,
    and an existing one is never overwritten: when the path is taken
    (a second run within the same second) the copy raises
    [FileExistsError], which [main] does not catch.  The run ends there,
    with nothing published and nothing logged after the set-up. *)
Theorem main_aborts_on_an_existing_snapshot (w : world node) config w1 e0 es :
  prologue w = (Ok config, w1) ->
  content_root config (w_disk w1) = Some (Dir (e0 :: es)) ->
  tree_exists (snapshot_name (w_clock w1)) (w_disk w1) = true ->
  main w = (FileExistsError (snapshot_name (w_clock w1)), w1) /\
  exit_status (fst (main w)) = 1.
Proof.
  intros Hpro Hroot Hsnap.
  assert (Hbak : backup_current_version config w1 =
                 (FileExistsError (snapshot_name (w_clock w1)), w1)).
  { pose proof (backup_unfold config w1) as Hu. cbv zeta in Hu. rewrite Hu.
    rewrite Hroot. unfold content_root in Hroot. unfold tree_copytree.
    destruct (resolve (root_dir (server config))) as [rs|]; [|discriminate].
    rewrite Hroot. unfold tree_exists in Hsnap.
    destruct (resolve (snapshot_name (w_clock w1))) as [rd|]; [|discriminate].
    destruct (get rd (w_disk w1)); [|discriminate].
    destruct w1; reflexivity. }
  rewrite (main_backup_raises _ _ _ _ _ Hpro Hbak). split; reflexivity.
Qed.



(** ** What the stages leave alone *)

Section Sides.
Context {disk : Type} {FS : FileSystem disk}.
Implicit Type w : world disk.

Lemma health_check_servers config w r w' :
  health_check config w = (r, w') ->
  w_serving w' = w_serving w /\ w_bind_attempts w' = w_bind_attempts w.
Proof.
  unfold health_check. unfold bind at 1. unfold logger_info at 1, logger at 1.
  set (w0 := set_log _ w).
  destruct (health_loop config (health_url config)
              (range (retries (health_check_cfg config))) w0)
    as (x & w1 & E & _ & _ & _).
  destruct (health_loop_sleeps _ _ _ _ _ _ E) as (_ & _ & Hsv & Hb).
  unfold bind at 1. rewrite E.
  destruct x as [b|[]].
  - intros [= <- <-]. now split.
  - unfold bind, logger_error, logger, ret. intros [= <- <-]. now split.
Qed.

(** X16.  [rollback] raises nothing, whatever the file system does.
    Without a path it only logs a warning.  With one it logs that the
    rollback starts, removes the content root if there is one and copies
    the snapshot: when both return it logs the success; when one of them
    raises, nothing more is done, the exception is logged as critical
    with its text, and the disk stays as that operation left it.  No
    request is sent, and no server is started, stopped or bound. *)
Theorem rollback_never_raises p config w :
  raises_os_errors FS ->
  let root := root_dir (server config) in
  let removed :=
    if fs_exists root (w_disk w) then fs_rmtree root (w_disk w)
    else (Ok tt, w_disk w) in
  let started := (w_log w ++ [(WARNING, "Initiating ROLLBACK...")])%list in
  exists w',
    rollback p config w = (Ok tt, w') /\
    network_side w' = network_side w /\
    (truthy p = false ->
     w' = set_log (w_log w ++ [(WARNING, "No backup path provided for rollback.")]) w) /\
    (truthy p = true ->
     (exists d1 d2,
        removed = (Ok tt, d1) /\
        fs_copytree (path_str p) root d1 = (Ok tt, d2) /\
        w' = set_log (started ++ [(INFO, "Rollback successful.")]) (set_disk d2 w)) \/
     (exists e d',
        is_Exception e = true /\
        (removed = (Raise e, d') \/
         exists d1, removed = (Ok tt, d1) /\
                    fs_copytree (path_str p) root d1 = (Raise e, d')) /\
        w' = set_log (started ++ [(CRITICAL, ("Rollback failed: " ++ str_exn e)%string)])
                     (set_disk d' w))).
Proof.
  intros os_errors root removed started.
  destruct (rollback_returns os_errors p config w) as (w' & E).
  exists w'. split; [exact E|]. split; [|split].
  - eapply (preserves_rollback network_side); eauto.
  - intros Hp. revert E. unfold rollback. rewrite Hp. cbn [negb].
    unfold logger_warning, logger. now intros [= <-].
  - intros Hp. revert E. unfold rollback. rewrite Hp. cbn [negb]. fold root.
    unfold try_except, bind, os_path_exists, shutil_rmtree, shutil_copytree,
      on_disk, logger_warning, logger_info, logger_critical, logger, ret.
    cbn [w_disk set_log set_disk w_log].
    subst removed.
    destruct (fs_exists root (w_disk w)); cbn [w_disk set_log set_disk w_log].
    + pose proof (rmtree_raises FS os_errors root (w_disk w)) as Hrm.
      destruct (fs_rmtree root (w_disk w)) as [[[]|e] d1]; cbn [fst] in Hrm.
      * cbn [w_disk set_log set_disk w_log].
        pose proof (copytree_raises FS os_errors (path_str p) root d1) as Hcp.
        destruct (fs_copytree (path_str p) root d1) as [[[]|e] d2] eqn:Ecp;
          cbn [fst] in Hcp.
        -- cbn [w_disk set_log set_disk w_log]. intros [= Hw]; subst w'. left.
           exists d1, d2. repeat split; auto.
        -- cbn in Hcp. rewrite Hcp. cbn [w_disk set_log set_disk w_log].
           intros [= Hw]; subst w'. right. exists e, d2. repeat split; eauto 6.
      * cbn in Hrm. rewrite Hrm. cbn [w_disk set_log set_disk w_log].
        intros [= Hw]; subst w'. right. exists e, d1. repeat split; eauto 6.
    + cbn [w_disk set_log set_disk w_log].
      pose proof (copytree_raises FS os_errors (path_str p) root (w_disk w)) as Hcp.
      destruct (fs_copytree (path_str p) root (w_disk w)) as [[[]|e] d2] eqn:Ecp;
        cbn [fst] in Hcp.
      * cbn [w_disk set_log set_disk w_log]. intros [= Hw]; subst w'. left.
        exists (w_disk w), d2. repeat split; auto.
      * cbn in Hcp. rewrite Hcp. cbn [w_disk set_log set_disk w_log].
        intros [= Hw]; subst w'. right. exists e, d2. repeat split; eauto 6.
Qed.

(** X19.  The stages that work on files send no request, sleep no second
    and start, stop or bind no server; the stages that work on the
    network leave the disk alone, and the health check leaves the servers
    alone too. *)
Theorem stage_footprints config p :
  preserves (@network_side disk) (setup_environment config) /\
  preserves (@network_side disk) (backup_current_version config) /\
  preserves (@network_side disk) (deploy_files config) /\
  preserves (@network_side disk) (rollback p config) /\
  preserves (@w_disk disk) (start_server config) /\
  preserves (@w_disk disk) (health_check config) /\
  preserves (fun w : world disk => (w_serving w, w_bind_attempts w)) (health_check config).
Proof.
  repeat split.
  - now apply preserves_setup_environment.
  - now apply preserves_backup.
  - now apply preserves_deploy_files.
  - now apply preserves_rollback.
  - intros w r w'. apply start_server_disk.
  - intros w r w'. apply health_check_disk.
  - intros w r w' E.
    destruct (health_check_servers _ _ _ _ E) as (-> & ->). reflexivity.
Qed.

End Sides.

(** ** The header block read back *)

Lemma respond_written defaults self :
  h_wfile (respond defaults self) =
    (h_wfile self ++
     [h_headers_buffer self ++ defaults ++ security_headers (h_config self)])%list /\
  h_headers_buffer (respond defaults self) = [] /\
  h_config (respond defaults self) = h_config self.
Proof.
  unfold respond, end_headers, super_end_headers. cbn.
  destruct (send_headers_buffer defaults self) as (Hb & Hw & Hc).
  destruct (send_headers_buffer
              (security_headers
                 (h_config (fold_left (fun h kv => send_header (fst kv) (snd kv) h)
                                      defaults self)))
              (fold_left (fun h kv => send_header (fst kv) (snd kv) h)
                         defaults self)) as (Hb' & Hw' & Hc').
  rewrite Hb', Hw', Hc', Hb, Hw, Hc. now rewrite <- app_assoc.
Qed.

Lemma all_values_app name (xs ys : list (string * string)) :
  all_values name (xs ++ ys) = (all_values name xs ++ all_values name ys)%list.
Proof. unfold all_values. now rewrite filter_app, map_app. Qed.

Lemma first_value_none name (xs : list (string * string)) :
  first_value name xs = None -> all_values name xs = [].
Proof.
  induction xs as [|[k v] xs IH]; [reflexivity|]. unfold all_values in *.
  cbn [first_value filter fst]. destruct (same_name k name); [discriminate|exact IH].
Qed.

Lemma absent_name name (xs : list (string * string)) :
  ~ In (lower name) (map (fun kv => lower (fst kv)) xs) ->
  first_value name xs = None.
Proof.
  induction xs as [|[k v] xs IH]; [reflexivity|].
  cbn [map fst first_value In]. intros Hn. unfold same_name.
  destruct (String.eqb_spec (lower k) (lower name)) as [E|_]; [tauto|].
  apply IH. tauto.
Qed.

(** The items of a dictionary whose keys differ by more than case. *)
Lemma dict_value k v (hs : list (string * string)) :
  NoDup (map (fun kv => lower (fst kv)) hs) -> In (k, v) hs ->
  first_value k hs = Some (lstrip v) /\ all_values k hs = [lstrip v].
Proof.
  induction hs as [|[k' v'] hs IH]; [contradiction|].
  cbn [map fst]. intros Hnd Hin. inversion Hnd as [|? ? Hfresh Hnd']; subst.
  unfold all_values in *. cbn [first_value filter fst]. unfold same_name.
  destruct Hin as [[= -> ->]|Hin].
  - rewrite String.eqb_refl. split; [reflexivity|]. cbn [map snd]. f_equal.
    apply (first_value_none k hs). now apply absent_name.
  - destruct (String.eqb_spec (lower k') (lower k)) as [E|_].
    + exfalso. apply Hfresh. rewrite E.
      now apply (in_map (fun kv => lower (fst kv)) _ _ Hin).
    + now apply IH.
Qed.

(** X17.  A header of the configuration whose name, case apart, the
    response does not carry already and the configuration has once, is
    read back with its configured value (less the blanks that lead it):
    by a client that takes the first line of the name and by one that
    joins all lines of the name, as the deployment test does with
    [response.headers[key]].  The block is one a client reads as it was
    sent. *)
Theorem configured_header_is_read_back defaults self k v :
  let configured := security_headers (h_config self) in
  let block := last_response (respond defaults self) in
  readable block = true ->
  NoDup (map (fun kv => lower (fst kv)) configured) ->
  In (k, v) configured ->
  first_value k (h_headers_buffer self ++ defaults) = None ->
  first_value k block = Some (lstrip v) /\
  joined_value k block = Some (lstrip v).
Proof.
  intros configured block _ Hnd Hin Hfree.
  destruct (respond_written defaults self) as (Hw & _ & _).
  assert (Hblock : block = ((h_headers_buffer self ++ defaults) ++ configured)%list).
  { unfold block, last_response. rewrite Hw, last_last. now rewrite app_assoc. }
  destruct (dict_value k v configured Hnd Hin) as (Hfirst & Hall).
  rewrite Hblock. split.
  - now rewrite first_value_app, Hfree.
  - unfold joined_value.
    now rewrite all_values_app, (first_value_none _ _ Hfree), Hall.
Qed.

(** X18.  Each response gets the configured headers once: the lines of
    one response are written out with it and do not show up in the
    next. *)
Theorem responses_do_not_accumulate_headers first second self :
  h_headers_buffer self = [] ->
  let configured := security_headers (h_config self) in
  let self' := respond second (respond first self) in
  h_wfile self' = (h_wfile self ++ [first ++ configured; second ++ configured])%list /\
  h_headers_buffer self' = [].
Proof.
  intros Hempty configured self'.
  destruct (respond_written first self) as (Hw1 & Hb1 & Hc1).
  destruct (respond_written second (respond first self)) as (Hw2 & Hb2 & _).
  unfold self'. rewrite Hw2, Hb2, Hb1, Hc1, Hw1, Hempty. cbn [app].
  now rewrite <- app_assoc.
Qed.

(** * The theorems at work *)

(** X5 on the rollout that is verified. *)
Lemma main_outcome_witness :
  exists e,
    fst (main Scenario.healthy) = Raise e /\
    (is_Exception e = true \/ e = SystemExit 1 \/
     (e = SystemExit 0 /\
      exists config k,
        w_config Scenario.healthy = ConfigJSON config /\
        answers_200 (w_http Scenario.healthy) (health_url config)
                    (timeout (health_check_cfg config)) k = true)).
Proof.
  refine (main_outcome (FS := tree_fs) tree_raises_os_errors Scenario.healthy
            (fst (main Scenario.healthy)) (snd (main Scenario.healthy)) _ _ _).
  - intros h p e H. discriminate H.
  - intros h p e H. discriminate H.
  - apply surjective_pairing.
Defined.

(** X6 with a free port. *)
Lemma start_server_handle_exactly_when_bound_witness :
  let served := {| srv_host := "0.0.0.0"; srv_port := 8080;
                   srv_directory := "www"; srv_config := Scenario.config |} in
  exists res w',
    start_server Scenario.config Scenario.healthy = (Ok res, w') /\
    (res = Some served <->
     (exists rc, w_connect_ex Scenario.healthy (probe_host "0.0.0.0") 8080 = Ok rc /\
                 rc <> 0) /\
     w_bind Scenario.healthy "0.0.0.0" 8080 = None) /\
    (res = Some served \/ res = None) /\
    (res = Some served ->
     w_serving w' = (w_serving Scenario.healthy ++ [served])%list /\
     w_bind_attempts w' =
       (w_bind_attempts Scenario.healthy ++ [("0.0.0.0", 8080)])%list) /\
    (res = None ->
     w_serving w' = w_serving Scenario.healthy /\
     exists msg, w_log w' = (w_log Scenario.healthy ++ [(ERROR, msg)])%list).
Proof.
  refine (start_server_handle_exactly_when_bound (disk := node)
            Scenario.config Scenario.healthy _ _).
  - intros e H. discriminate H.
  - intros e H. discriminate H.
Defined.

(** X8 on a working tree of excluded and hidden entries. *)
Lemma deploy_files_nothing_to_publish_witness :
  deploy_files Scenario.config (Scenario.world_on Scenario.nothing_new) =
    (Ok PyNone,
     set_log [(INFO, "Deploying files..."); (INFO, "Deployed 0 items to www")]
             (Scenario.world_on Scenario.nothing_new)).
Proof.
  exact (deploy_files_nothing_to_publish (FS := tree_fs) Scenario.config
           (Scenario.world_on Scenario.nothing_new)
           ["deploy.py"; ".git"; "www"] eq_refl eq_refl).
Defined.

(** X9 without a configuration file. *)
Lemma main_stops_at_a_configuration_error_witness :
  exists msg,
    main Scenario.unconfigured =
      (Raise (SystemExit 1),
       set_log [(INFO, "Starting deployment process..."); (ERROR, msg)]
               Scenario.unconfigured).
Proof.
  exact (main_stops_at_a_configuration_error (FS := tree_fs)
           Scenario.unconfigured (or_introl eq_refl)).
Defined.

(** X10 on the rollout that is verified. *)
Lemma main_verified_serves_until_interrupt_witness :
  exists w',
    main Scenario.healthy = (Raise (SystemExit 0), w') /\
    exit_status (fst (main Scenario.healthy)) = 0 /\
    w_disk w' = Scenario.published_tree /\
    w_sleeps w' = 3%nat /\
    (forall s, In s (w_serving w') ->
               same_address {| srv_host := "0.0.0.0"; srv_port := 8080;
                               srv_directory := "www";
                               srv_config := Scenario.config |} s = false) /\
    w_log w' = (w_log Scenario.healthy_checked ++
                [(INFO, "Deployment SUCCESSFUL. System is online.");
                 (INFO, "Stopping server...")])%list.
Proof.
  refine (main_verified_serves_until_interrupt (FS := tree_fs)
            Scenario.healthy Scenario.config
            Scenario.healthy_set_up (Some Scenario.snapshot_path)
            Scenario.healthy_backed_up PyNone Scenario.healthy_published
            {| srv_host := "0.0.0.0"; srv_port := 8080;
               srv_directory := "www"; srv_config := Scenario.config |}
            Scenario.healthy_serving Scenario.healthy_checked
            _ _ _ _ _); vm_compute; reflexivity.
Defined.

(** X11 on a first rollout whose device fails at the first copy. *)
Lemma main_failed_publish_without_snapshot_witness :
  main Scenario.first_rollout =
    (Raise (SystemExit 1),
     set_log (w_log Scenario.first_rollout_failed ++
              [(ERROR, "Deployment failed: [Errno 5] Input/output error")])
             Scenario.first_rollout_failed).
Proof.
  refine (main_failed_publish_without_snapshot (FS := failing_fs)
            Scenario.first_rollout Scenario.config
            Scenario.first_rollout_set_up Scenario.first_rollout_set_up
            (Exception "OSError" "[Errno 5] Input/output error")
            Scenario.first_rollout_failed _ _ _ _); vm_compute; reflexivity.
Defined.

(** X12 on a second run within the second of the first. *)
Lemma main_aborts_on_an_existing_snapshot_witness :
  main Scenario.rerun =
    (FileExistsError (snapshot_name (w_clock Scenario.rerun_set_up)),
     Scenario.rerun_set_up) /\
  exit_status (fst (main Scenario.rerun)) = 1.
Proof.
  refine (main_aborts_on_an_existing_snapshot
            Scenario.rerun Scenario.config Scenario.rerun_set_up
            ("index.html", File "<h1>new</h1>")
            [("assets", Dir [("site.css", File "body {}")])] _ _ _);
    vm_compute; reflexivity.
Defined.

(** X13 on the working tree of the scenario, which has the content root
    and lacks the backups directory. *)
Lemma setup_environment_makes_both_directories_witness :
  let w' := snd (setup_environment Scenario.config Scenario.healthy) in
  tree_exists "www" (w_disk w') = true /\
  tree_exists BACKUP_DIR (w_disk w') = true /\
  (forall q d, get q (w_disk Scenario.healthy) = Some (File d) ->
               get q (w_disk w') = Some (File d)) /\
  setup_environment Scenario.config w' =
    (Ok tt, set_log (w_log w' ++ [(INFO, "Setting up environment...")]) w').
Proof.
  exact (setup_environment_makes_both_directories Scenario.config
           Scenario.healthy
           (snd (setup_environment Scenario.config Scenario.healthy)) eq_refl).
Defined.

(** X14 on the snapshot of the scenario. *)
Lemma backup_changes_no_file_witness :
  (forall q d, get q (w_disk Scenario.healthy_set_up) = Some (File d) ->
               get q (w_disk Scenario.healthy_backed_up) = Some (File d)) /\
  (forall q, outside (snapshot_name (w_clock Scenario.healthy_set_up)) q ->
             get q (w_disk Scenario.healthy_backed_up)
             = get q (w_disk Scenario.healthy_set_up)) /\
  (Ok (Some Scenario.snapshot_path) = Ok None ->
   Scenario.healthy_backed_up = Scenario.healthy_set_up).
Proof.
  refine (backup_changes_no_file Scenario.config Scenario.healthy_set_up
            Scenario.healthy_backed_up (Ok (Some Scenario.snapshot_path)) _);
    vm_compute; reflexivity.
Defined.



(** X16 on the tree, with a path at which there is no snapshot. *)
Lemma rollback_never_raises_witness :
  let w := Scenario.healthy in
  let p := Some Scenario.snapshot_path in
  let root := root_dir (server Scenario.config) in
  let removed :=
    if fs_exists root (w_disk w) then fs_rmtree root (w_disk w)
    else (Ok tt, w_disk w) in
  let started := (w_log w ++ [(WARNING, "Initiating ROLLBACK...")])%list in
  exists w',
    rollback p Scenario.config w = (Ok tt, w') /\
    network_side w' = network_side w /\
    (truthy p = false ->
     w' = set_log (w_log w ++ [(WARNING, "No backup path provided for rollback.")]) w) /\
    (truthy p = true ->
     (exists d1 d2,
        removed = (Ok tt, d1) /\
        fs_copytree (path_str p) root d1 = (Ok tt, d2) /\
        w' = set_log (started ++ [(INFO, "Rollback successful.")]) (set_disk d2 w)) \/
     (exists e d',
        is_Exception e = true /\
        (removed = (Raise e, d') \/
         exists d1, removed = (Ok tt, d1) /\
                    fs_copytree (path_str p) root d1 = (Raise e, d')) /\
        w' = set_log (started ++ [(CRITICAL, ("Rollback failed: " ++ str_exn e)%string)])
                     (set_disk d' w))).
Proof.
  exact (rollback_never_raises (FS := tree_fs) (Some Scenario.snapshot_path)
           Scenario.config Scenario.healthy tree_raises_os_errors).
Defined.

(** X17 for the [X-Frame-Options] line of the scenario. *)
Lemma configured_header_is_read_back_witness :
  let block := last_response (respond Scenario.default_headers Scenario.plain_handler) in
  first_value "X-Frame-Options" block = Some "DENY" /\
  joined_value "X-Frame-Options" block = Some "DENY".
Proof.
  refine (configured_header_is_read_back Scenario.default_headers
            Scenario.plain_handler "X-Frame-Options" "DENY" _ _ _ _).
  - vm_compute. reflexivity.
  - repeat constructor; cbn; intuition discriminate.
  - left. reflexivity.
  - reflexivity.
Defined.

(** X18 for two responses of the scenario's handler. *)
Lemma responses_do_not_accumulate_headers_witness :
  let configured := security_headers (h_config Scenario.plain_handler) in
  let self' := respond [("Content-type", "text/css")]
                 (respond Scenario.default_headers Scenario.plain_handler) in
  h_wfile self' = [(Scenario.default_headers ++ configured)%list;
                   ([("Content-type", "text/css")] ++ configured)%list] /\
  h_headers_buffer self' = [].
Proof.
  exact (responses_do_not_accumulate_headers Scenario.default_headers
           [("Content-type", "text/css")] Scenario.plain_handler eq_refl).
Defined.
